(** * canary-bot: the mesh client (mesh/client.go)

    A shallow embedding of the client side of the mesh protocol: Join,
    ping, NodeDiscovery, pushSamples, initClient, closeClient and Rtt.

    The Go methods mutate the receiver [Mesh] and talk to the outside
    world (gRPC, the clock, the metrics sink, the logger).  Here the
    receiver is an explicit state that is passed along, every effect is
    appended to a trace kept in that state, and the answers of the outside
    world are read from an environment [Env] that is asked with the trace
    produced so far.  A nil dereference or an index out of range is the
    outcome [Panics]; a wait at [m.mu.Lock()] for a lock that is held, which
    nothing in the run of one operation releases, is the outcome [Blocks]. *)

From Stdlib Require Import ZArith String List Lia DecimalString DecimalPos DecimalZ.
From stdpp Require Import gmap strings list fin_maps.

Local Open Scope string_scope.
Local Open Scope list_scope.
Local Open Scope Z_scope.

(** ** Wire messages (proto/mesh/v1)

    The field [Samples] of the message [Samples] is [Samples_] here. *)

Module meshv1.

Record Node := { Name : string; Target : string }.

Record Sample := {
  From : string; To : string; Key : Z; Value : string; Ts : Z }.

Record JoinMeshResponse := {
  NameUnique : bool; MyName : string; Nodes : list Node }.

Record NodeDiscoveryRequest := { NewNode : Node; IAmNode : Node }.

Record Samples := { Samples_ : list Sample }.

End meshv1.

(** ** Records of the state store (package data)

    The field [Id] of a sample is [SId] here, next to the [Id] of a node. *)

Module data.

Record Node := {
  Id : Z; Name : string; Target : string; State : Z; StateChangeTs : Z }.

Record Sample := {
  SId : Z; From : string; To : string; Key : Z; Value : string; Ts : Z }.

End data.

(** ** gRPC values *)

Inductive TransportCredentials :=
| InsecureCredentials
| TLSCredentials (cert : string).

Inductive DialOption :=
| WithTransportCredentials (c : TransportCredentials)
| WithUnaryInterceptor
| WithBlock.

#[global] Instance TransportCredentials_eq_dec : EqDecision TransportCredentials.
Proof. solve_decision. Defined.

#[global] Instance DialOption_eq_dec : EqDecision DialOption.
Proof. solve_decision. Defined.

(** A [grpc.ClientConn]: the address it was dialled with and its options. *)
Record ClientConn := { connTarget : string; connOpts : list DialOption }.

(** [MeshClient] of the source.  The field [client] is the service stub
    [meshv1.NewMeshServiceClient(conn)]: it holds nothing but the connection
    it was built from. *)
Record MeshClient := { conn : ClientConn; client : ClientConn }.

Definition error := string.

Inductive Request :=
| ReqJoinMesh (n : meshv1.Node)
| ReqPing (n : meshv1.Node)
| ReqNodeDiscovery (r : meshv1.NodeDiscoveryRequest)
| ReqPushSamples (s : meshv1.Samples)
| ReqRtt.

Inductive Level := DebugLevel | InfoLevel | WarnLevel.

(** [time.Time]: the monotonic reading in nanoseconds and the wall clock in
    unix seconds. *)
Record Time := { ext : Z; unixSec : Z }.

(** ** Effects *)

Inductive Event :=
| EvLog (logger : string) (lvl : Level) (msg : string) (args : list string)
| EvReplaceGrpcLogger
| EvLoadCredentials (caCertPath caCert : string)
| EvDial (target : string) (opts : list DialOption)
| EvInvoke (cc : ClientConn) (req : Request) (timeout : option Z)
| EvClose (cc : ClientConn)
| EvNow (t : Time)
| EvRandom
| EvObserve (sampleName peer : string) (nanoseconds : Z).

(** The events that reach the network: a dial, a call, a close. *)
Definition isNetwork (e : Event) : bool :=
  match e with
  | EvDial _ _ | EvInvoke _ _ _ | EvClose _ => true
  | _ => false
  end.

Definition isObservation (e : Event) : bool :=
  match e with EvObserve _ _ _ => true | _ => false end.

Definition isInvoke (e : Event) : bool :=
  match e with EvInvoke _ _ _ => true | _ => false end.

Definition isDial (e : Event) : bool :=
  match e with EvDial _ _ => true | _ => false end.

Definition isWarning (e : Event) : bool :=
  match e with EvLog _ WarnLevel _ _ => true | _ => false end.

(** The entry log line of [initClient]: one per attempt to obtain a client. *)
Definition isInitClient (e : Event) : bool :=
  match e with
  | EvLog logger DebugLevel msg _ =>
      bool_decide (msg = "Init client") && bool_decide (logger = "client")
  | _ => false
  end.

(** ** The outside world

    Every answer is a function of the trace so far (newest event first), so
    the same address may fail at one time and answer at another. *)

Record Env := {
  (* helper.Hash, a uint32 *)
  Hash : string -> Z;
  (* helper.LoadClientTLSCredentials *)
  LoadClientTLSCredentials :
    list Event -> string -> string -> error + TransportCredentials;
  (* grpc.Dial: [None] is a nil error *)
  Dial : list Event -> string -> list DialOption -> option error;
  (* the remote end of a unary call *)
  JoinMeshReply :
    list Event -> ClientConn -> meshv1.Node -> error + meshv1.JoinMeshResponse;
  UnaryReply : list Event -> ClientConn -> Request -> option error;
  (* Close of a grpc.ClientConn *)
  CloseReply : list Event -> ClientConn -> option error;
  (* time.Now *)
  Clock : list Event -> Time;
  (* the random source of the state store *)
  Random : list Event -> nat;
  (* constants of the packages mesh and data *)
  NODE_OK : Z;
  RTT_TOTAL : Z;
  RTT_REQUEST : Z;
  SampleName : Z -> string
}.

(** ** Configuration and state *)

Module config.

Record SetupConfig := {
  Name : string;
  JoinAddress : string;
  ListenAddress : string;
  ListenPort : Z;
  DebugGrpc : bool;
  CaCertPath : string;
  CaCert : string }.

Record RoutineConfig := { RequestTimeout : Z }.

End config.

(** The two tables of the state store, keyed by the derived ids. *)
Record Database := {
  nodes : gmap Z data.Node;
  samples : gmap Z data.Sample }.

(** The receiver [Mesh].  [mu] is the mutex [m.mu]: [true] while it is
    held.  [m.logger] and [m.metrics] are the trace. *)
Record Mesh := {
  setupConfig : config.SetupConfig;
  routineConfig : config.RoutineConfig;
  clients : gmap Z MeshClient;
  database : Database;
  mu : bool;
  trace : list Event }.

(** How a call ends: it returns, it panics, or it waits for [m.mu] in the
    state given, for ever when no other goroutine releases the lock. *)
Inductive Outcome (A : Type) :=
| Returns (a : A) (m : Mesh)
| Panics
| Blocks (m : Mesh).
Arguments Returns {A} a m.
Arguments Panics {A}.
Arguments Blocks {A} m.

Definition result {A : Type} (o : Outcome A) : option A :=
  match o with Returns a _ => Some a | _ => None end.

Definition final {A : Type} (o : Outcome A) : option Mesh :=
  match o with Returns _ m => Some m | _ => None end.

(** The name of [m.logger] itself; [Named] gives the routine loggers. *)
Definition rootLogger : string := EmptyString.

Definition emit (e : Event) (m : Mesh) : Mesh :=
  {| setupConfig := setupConfig m; routineConfig := routineConfig m;
     clients := clients m; database := database m; mu := mu m;
     trace := e :: trace m |}.

Definition logw (logger : string) (lvl : Level) (msg : string)
    (args : list string) (m : Mesh) : Mesh :=
  emit (EvLog logger lvl msg args) m.

Definition setClients (c : gmap Z MeshClient) (m : Mesh) : Mesh :=
  {| setupConfig := setupConfig m; routineConfig := routineConfig m;
     clients := c; database := database m; mu := mu m; trace := trace m |}.

Definition setDatabase (d : Database) (m : Mesh) : Mesh :=
  {| setupConfig := setupConfig m; routineConfig := routineConfig m;
     clients := clients m; database := d; mu := mu m; trace := trace m |}.

Definition setMu (b : bool) (m : Mesh) : Mesh :=
  {| setupConfig := setupConfig m; routineConfig := routineConfig m;
     clients := clients m; database := database m; mu := b;
     trace := trace m |}.

(** m.mu.Lock(): the lock is taken when it is free; [None] when it is
    held and the caller has to wait. *)
Definition Lock (m : Mesh) : option Mesh :=
  if mu m then None else Some (setMu true m).

(** m.mu.Unlock() *)
Definition Unlock (m : Mesh) : Mesh := setMu false m.

(** strconv.FormatInt(x, 10) *)
Definition FormatInt (x : Z) : string := NilZero.string_of_int (Z.to_int x).

(** The %+v rendering of a []string. *)
Definition formatStrings (l : list string) : string :=
  "[" +:+ String.concat " " l +:+ "]".

(** time.Duration is an int64 of nanoseconds. *)
Definition maxDuration : Z := 2 ^ 63 - 1.
Definition minDuration : Z := - 2 ^ 63.

(** [t.Sub(u)] on two readings of the monotonic clock: the difference,
    saturated at the ends of the int64 range. *)
Definition Sub (t u : Time) : Z :=
  let d := ext t - ext u in
  if maxDuration <? d then maxDuration
  else if d <? minDuration then minDuration
  else d.

Definition Unix (t : Time) : Z := unixSec t.

(** * The operations *)

Section Client.

Variable env : Env.

(** ** Identity hashing and the state store *)

(** Modelled from the spec: [GetId] of package mesh is not among the
    sources; the id of a node is the hash of its target alone. *)
Definition GetId (n : meshv1.Node) : Z := Hash env (meshv1.Target n).

(** Modelled from the spec: [data.Convert] is not among the sources; the
    wire node and a state supplied by the caller give the full record, with
    the derived id and a zero timestamp. *)
Definition Convert (n : meshv1.Node) (state : Z) : data.Node :=
  {| data.Id := GetId n;
     data.Name := meshv1.Name n;
     data.Target := meshv1.Target n;
     data.State := state;
     data.StateChangeTs := 0 |}.

(** Modelled from the spec: [data.GetSampleId] is not among the sources;
    the hash of from, to and the key in decimal, concatenated. *)
Definition GetSampleId (s : data.Sample) : Z :=
  Hash env (data.From s +:+ data.To s +:+ FormatInt (data.Key s)).

(** Modelled from the spec: [Database.SetNode] is not among the sources; an
    upsert under the id derived from the target. *)
Definition SetNode (n : data.Node) (db : Database) : Database :=
  let id := Hash env (data.Target n) in
  {| nodes :=
       <[id := {| data.Id := id; data.Name := data.Name n;
                  data.Target := data.Target n; data.State := data.State n;
                  data.StateChangeTs := data.StateChangeTs n |}]> (nodes db);
     samples := samples db |}.

(** Modelled from the spec: [Database.SetSample] is not among the sources;
    an upsert under the id derived from (from, to, key), so that a new
    measurement of an edge overwrites the previous one. *)
Definition SetSample (s : data.Sample) (db : Database) : Database :=
  let id := GetSampleId s in
  {| nodes := nodes db;
     samples :=
       <[id := {| data.SId := id; data.From := data.From s;
                  data.To := data.To s; data.Key := data.Key s;
                  data.Value := data.Value s; data.Ts := data.Ts s |}]>
         (samples db) |}.

(** Modelled from the spec: [Database.GetSampleList] is not among the
    sources; the full current sample list. *)
Definition GetSampleList (db : Database) : list data.Sample :=
  (map_to_list (samples db)).*2.

(** Modelled from the spec: the subset of the stored nodes that are in a
    given state; the store's own listing is not among the sources. *)
Definition GetNodeListByState (db : Database) (state : Z) : list data.Node :=
  filter (fun n => data.State n = state) (map_to_list (nodes db)).*2.

(** Modelled from the spec: [Database.GetRandomNodeListByState] is not among
    the sources; [amount] nodes picked at random among those in the given
    state, and nil ([None]) when there is none.  [r] is the draw. *)
Definition GetRandomNodeListByState (r : nat) (db : Database) (state : Z)
    (amount : nat) : option (list data.Node) :=
  match GetNodeListByState db state with
  | [] => None
  | l => Some (take amount (rotate (r mod length l)%nat l))
  end.

(** ** The connection manager *)

(** m.timeoutInterceptor: the call runs under a context that expires
    after the configured request timeout. *)
Definition timeoutInterceptor (m : Mesh) : option Z :=
  Some (config.RequestTimeout (routineConfig m)).

(** A unary call leaves the process through the interceptor the
    connection was dialled with, if any. *)
Definition invoke (m : Mesh) (cc : ClientConn) (req : Request) : Mesh :=
  let timeout :=
    if bool_decide (WithUnaryInterceptor ∈ connOpts cc)
    then timeoutInterceptor m else None in
  emit (EvInvoke cc req timeout) m.

Definition callJoinMesh (m : Mesh) (stub : ClientConn) (req : meshv1.Node)
    : (error + meshv1.JoinMeshResponse) * Mesh :=
  let m := invoke m stub (ReqJoinMesh req) in
  (JoinMeshReply env (trace m) stub req, m).

Definition callUnary (m : Mesh) (stub : ClientConn) (req : Request)
    : option error * Mesh :=
  let m := invoke m stub req in
  (UnaryReply env (trace m) stub req, m).

(** The TLS block shared by initClient and Rtt. *)
Definition transportOption (logger : string) (m : Mesh)
    : DialOption * Mesh :=
  let cfg := setupConfig m in
  let m := emit (EvLoadCredentials (config.CaCertPath cfg) (config.CaCert cfg)) m in
  match LoadClientTLSCredentials env (trace m)
          (config.CaCertPath cfg) (config.CaCert cfg) with
  | inl err =>
      (WithTransportCredentials InsecureCredentials,
       logw logger DebugLevel
         "Cannot load TLS credentials - starting insecure connection"
         ["error"; err] m)
  | inr tlsCredentials => (WithTransportCredentials tlsCredentials, m)
  end.

Definition grpcDial (m : Mesh) (target : string) (opts : list DialOption)
    : option error * Mesh :=
  let m := emit (EvDial target opts) m in
  (Dial env (trace m) target opts, m).

(** The lock is taken only around the write to the map, after the dial:
    the lookup runs without it. *)
Definition initClient (m : Mesh) (to : meshv1.Node) : Outcome (option error) :=
  let nodeId := GetId to in
  let m := logw "client" DebugLevel "Init client" [] m in
  let m := if config.DebugGrpc (setupConfig m)
           then emit EvReplaceGrpcLogger m else m in
  match clients m !! nodeId with
  | None =>
      let '(cred, m) := transportOption "client" m in
      let opts := [cred; WithUnaryInterceptor] in
      let '(err, m) := grpcDial m (meshv1.Target to) opts in
      match err with
      | Some e =>
          Returns (Some e) (logw "client" DebugLevel "Dial error" ["error"; e] m)
      | None =>
          let cc := {| connTarget := meshv1.Target to; connOpts := opts |} in
          match Lock m with
          | None => Blocks m
          | Some m =>
              Returns None
                (Unlock
                   (setClients
                      (<[nodeId := {| conn := cc; client := cc |}]> (clients m)) m))
          end
      end
  | Some _ =>
      Returns None (logw "client" DebugLevel "Client already existed" [] m)
  end.

(** The node this process announces itself as in Join and ping. *)
Definition self (m : Mesh) : meshv1.Node :=
  {| meshv1.Name := config.Name (setupConfig m);
     meshv1.Target := config.JoinAddress (setupConfig m) |}.

(** ** Join *)

Inductive Flow :=
| Continue (res : option meshv1.JoinMeshResponse) (m : Mesh)
| Break (res : option meshv1.JoinMeshResponse) (m : Mesh)
| Return (r : bool * bool) (m : Mesh)
| BodyPanics
| BodyBlocks (m : Mesh).

(** One pass through the body of the candidate loop.  [res] is the
    variable declared before the loop; a failed call sets it to nil. *)
Definition JoinBody (targets : list string) (index : Z) (target : string)
    (res : option meshv1.JoinMeshResponse) (m : Mesh) : Flow :=
  let m := logw "join-routine" DebugLevel "Index %+v Targets: %+v"
             [FormatInt index; formatStrings targets] m in
  let node := {| meshv1.Name := EmptyString; meshv1.Target := target |} in
  match initClient m node with
  | Panics => BodyPanics
  | Blocks m => BodyBlocks m
  | Returns (Some e) m =>
      let m := logw rootLogger DebugLevel
                 "Could not connect to client, joinMesh request failed" [] m in
      if bool_decide (index ≠ Z.of_nat (length targets) - 1) then
        Continue res
          (logw "join-routine" DebugLevel "Trying next node" ["error"; e] m)
      else Return (false, true) m
  | Returns None m =>
      match clients m !! GetId node with
      | None => BodyPanics
      | Some c =>
          let '(reply, m) := callJoinMesh m (client c) (self m) in
          match reply with
          | inl e =>
              let m := logw rootLogger DebugLevel
                         "Client connected, but joinMesh request failed" [] m in
              if bool_decide (index ≠ Z.of_nat (length targets) - 1) then
                Continue None
                  (logw "join-routine" DebugLevel "Trying next node"
                     ["error"; e] m)
              else Return (false, true) m
          | inr r =>
              if negb (meshv1.NameUnique r) then
                Return (true, false)
                  (logw "join-routine" DebugLevel
                     "Node name is not unique in mesh" [] m)
              else
                let node := {| meshv1.Name := meshv1.MyName r;
                               meshv1.Target := target |} in
                let m := setDatabase
                           (SetNode (Convert node (NODE_OK env)) (database m)) m in
                Break (Some r)
                  (logw "join-routine" InfoLevel "Joined mesh"
                     ["name"; meshv1.Name node; "target"; meshv1.Target node] m)
          end
      end
  end.

Inductive LoopExit :=
| Fallthrough (res : option meshv1.JoinMeshResponse) (m : Mesh)
| Returned (r : bool * bool) (m : Mesh)
| LoopPanics
| LoopBlocks (m : Mesh).

(** [for index, target := range targets], from [index] on. *)
Fixpoint JoinLoop (targets : list string) (index : Z) (rest : list string)
    (res : option meshv1.JoinMeshResponse) (m : Mesh) : LoopExit :=
  match rest with
  | [] => Fallthrough res m
  | target :: rest' =>
      match JoinBody targets index target res m with
      | Continue res m => JoinLoop targets (index + 1) rest' res m
      | Break res m => Fallthrough res m
      | Return r m => Returned r m
      | BodyPanics => LoopPanics
      | BodyBlocks m => LoopBlocks m
      end
  end.

(** The loop over [res.Nodes] that follows the candidate loop. *)
Definition saveNodes (nl : list meshv1.Node) (m : Mesh) : Mesh :=
  fold_left
    (fun m node =>
       if bool_decide (GetId node ≠ GetId (self m))
       then setDatabase (SetNode (Convert node (NODE_OK env)) (database m)) m
       else m)
    nl m.

Definition Join (m : Mesh) (targets : list string) : Outcome (bool * bool) :=
  let m := logw "join-routine" DebugLevel "Starting" [] m in
  match JoinLoop targets 0 targets None m with
  | Returned r m => Returns r m
  | LoopPanics => Panics
  | LoopBlocks m => Blocks m
  | Fallthrough None _ => Panics
  | Fallthrough (Some res) m =>
      Returns (true, true) (saveNodes (meshv1.Nodes res) m)
  end.

(** ** ping, NodeDiscovery, pushSamples *)

Definition ping (m : Mesh) (node : meshv1.Node) : Outcome (option error) :=
  match initClient m node with
  | Panics => Panics
  | Blocks m => Blocks m
  | Returns (Some e) m =>
      Returns (Some e)
        (logw "ping-routine" DebugLevel "Could not connect to client" [] m)
  | Returns None m =>
      match clients m !! GetId node with
      | None => Panics
      | Some c =>
          let '(err, m) := callUnary m (client c) (ReqPing (self m)) in
          match err with
          | Some e =>
              Returns (Some e) (logw "ping-routine" DebugLevel "Ping failed" [] m)
          | None => Returns None m
          end
      end
  end.

Definition discoveryRequest (m : Mesh) (newNode : meshv1.Node)
    : meshv1.NodeDiscoveryRequest :=
  let cfg := setupConfig m in
  {| meshv1.NewNode := newNode;
     meshv1.IAmNode :=
       {| meshv1.Name := config.Name cfg;
          meshv1.Target :=
            config.ListenAddress cfg +:+ ":" +:+
            FormatInt (config.ListenPort cfg) |} |}.

Definition NodeDiscovery (m : Mesh) (toNode newNode : meshv1.Node)
    : Outcome unit :=
  match initClient m toNode with
  | Panics => Panics
  | Blocks m => Blocks m
  | Returns (Some _) m =>
      Returns tt
        (logw "discovery-routine" WarnLevel
           "Could not connect to client - skip Node Discover Request"
           ["node"; meshv1.Name toNode] m)
  | Returns None m =>
      match clients m !! GetId toNode with
      | None => Panics
      | Some c =>
          let '(err, m) :=
            callUnary m (client c)
              (ReqNodeDiscovery (discoveryRequest m newNode)) in
          match err with
          | Some e =>
              Returns tt
                (logw "discovery-routine" WarnLevel
                   "Could not start request to client - skip Node Discover Request"
                   ["node"; meshv1.Name toNode; "error"; e] m)
          | None => Returns tt m
          end
      end
  end.

Definition wireSample (sample : data.Sample) : meshv1.Sample :=
  {| meshv1.From := data.From sample; meshv1.To := data.To sample;
     meshv1.Key := data.Key sample; meshv1.Value := data.Value sample;
     meshv1.Ts := data.Ts sample |}.

Definition pushSamples (m : Mesh) (node : meshv1.Node)
    : Outcome (option error) :=
  match initClient m node with
  | Panics => Panics
  | Blocks m => Blocks m
  | Returns (Some e) m =>
      Returns (Some e)
        (logw "sample-routine" DebugLevel "Could not connect to client" [] m)
  | Returns None m =>
      let databaseSamples := GetSampleList (database m) in
      if bool_decide (length databaseSamples = 0%nat) then
        Returns None
          (logw "sample-routine" DebugLevel
             "No samples found for push - will not push" [] m)
      else
        let samples := map wireSample (GetSampleList (database m)) in
        match clients m !! GetId node with
        | None => Panics
        | Some c =>
            let '(err, m) :=
              callUnary m (client c)
                (ReqPushSamples {| meshv1.Samples_ := samples |}) in
            match err with
            | Some e =>
                Returns (Some e)
                  (logw "sample-routine" DebugLevel "Could not send samples"
                     ["error"; e] m)
            | None => Returns None m
            end
        end
  end.

(** ** closeClient *)

(** The whole body runs under the lock.  [m.clients[GetId(to)]] is nil
    when the id is not cached, and [.conn] dereferences it.  When Close
    fails the function returns with the entry still cached and, the return
    coming before [m.mu.Unlock()], with the lock still held. *)
Definition closeClient (m : Mesh) (to : meshv1.Node) : Outcome (option error) :=
  match Lock m with
  | None => Blocks m
  | Some m =>
      match clients m !! GetId to with
      | None => Panics
      | Some c =>
          let m := emit (EvClose (conn c)) m in
          match CloseReply env (trace m) (conn c) with
          | Some e => Returns (Some e) m
          | None =>
              Returns None (Unlock (setClients (delete (GetId to) (clients m)) m))
          end
      end
  end.

(** ** Rtt *)

Definition timeNow (m : Mesh) : Time * Mesh :=
  let t := Clock env (trace m) in (t, emit (EvNow t) m).

Definition rttSample (m : Mesh) (node : data.Node) (key duration : Z)
    (now : Time) : data.Sample :=
  {| data.SId := 0;
     data.From := config.Name (setupConfig m);
     data.To := data.Name node;
     data.Key := key;
     data.Value := FormatInt duration;
     data.Ts := Unix now |}.

(** [defer conn.Close()] is registered right after the dial, before the
    error is looked at: when the dial fails [conn] is nil and the deferred
    call dereferences it. *)
Definition Rtt (m : Mesh) : Outcome unit :=
  let m := logw "rtt" DebugLevel "Starting RTT measurement" [] m in
  let m := emit EvRandom m in
  match GetRandomNodeListByState (Random env (trace m)) (database m)
          (NODE_OK env) 1 with
  | None =>
      Returns tt
        (logw "rtt" DebugLevel "No Node suitable for RTT measurement" [] m)
  | Some [] => Panics
  | Some (node :: _) =>
      let m := logw "rtt" DebugLevel "Node selected" ["node"; data.Name node] m in
      let m := if config.DebugGrpc (setupConfig m)
               then emit EvReplaceGrpcLogger m else m in
      let '(cred, m) := transportOption "rtt" m in
      let opts := [cred; WithBlock] in
      let '(rttStartH, m) := timeNow m in
      let '(err, m) := grpcDial m (data.Target node) opts in
      match err with
      | Some _ => Panics
      | None =>
          let cc := {| connTarget := data.Target node; connOpts := opts |} in
          let '(rttStart, m) := timeNow m in
          let '(err, m) := callUnary m cc ReqRtt in
          let '(rttEnd, m) := timeNow m in
          match err with
          | Some _ =>
              Returns tt (emit (EvClose cc) (logw "rtt" DebugLevel "RTT failed" [] m))
          | None =>
              let m := logw "rtt" DebugLevel "RTT succeeded" [] m in
              let rttH := Sub rttEnd rttStartH in
              let rtt := Sub rttEnd rttStart in
              let m := emit (EvObserve (SampleName env (RTT_TOTAL env))
                               (data.Name node) rttH) m in
              let m := emit (EvObserve (SampleName env (RTT_REQUEST env))
                               (data.Name node) rtt) m in
              let '(now, m) := timeNow m in
              let m := setDatabase
                         (SetSample (rttSample m node (RTT_TOTAL env) rttH now)
                            (database m)) m in
              let '(now, m) := timeNow m in
              let m := setDatabase
                         (SetSample (rttSample m node (RTT_REQUEST env) rtt now)
                            (database m)) m in
              Returns tt (emit (EvClose cc) m)
          end
      end
  end.

(** ** Vocabulary for statements about Join

    What a candidate answers when it is tried at [index] in state [m]:
    the client could not be obtained, the JoinMesh call failed, or a
    response came back; nothing when the pass does not come that far. *)

Inductive Reply :=
| ConnectionFailure (e : error)
| RpcFailure (e : error)
| Response (res : meshv1.JoinMeshResponse).

Definition candidateReply (targets : list string) (index : Z)
    (target : string) (m : Mesh) : option Reply :=
  let m := logw "join-routine" DebugLevel "Index %+v Targets: %+v"
             [FormatInt index; formatStrings targets] m in
  let node := {| meshv1.Name := EmptyString; meshv1.Target := target |} in
  match initClient m node with
  | Returns (Some e) _ => Some (ConnectionFailure e)
  | Returns None m =>
      match clients m !! GetId node with
      | None => None
      | Some c =>
          match (callJoinMesh m (client c) (self m)).1 with
          | inl e => Some (RpcFailure e)
          | inr r => Some (Response r)
          end
      end
  | _ => None
  end.

Definition isFailure (r : option Reply) : bool :=
  match r with
  | Some (ConnectionFailure _) | Some (RpcFailure _) => true
  | _ => false
  end.

(** Every candidate of [rest], tried in order from [index] on, fails.  The
    state in which the next candidate is tried is the one the loop body
    leaves when it continues. *)
Fixpoint everyCandidateFails (targets : list string) (index : Z)
    (rest : list string) (m : Mesh) : bool :=
  match rest with
  | [] => true
  | target :: rest' =>
      isFailure (candidateReply targets index target m) &&
      match JoinBody targets index target None m with
      | Continue _ m' => everyCandidateFails targets (index + 1) rest' m'
      | _ => true
      end
  end.

(** The first candidate that sends a response, with its index and its
    address: every candidate before it has failed. *)
Fixpoint firstResponse (targets : list string) (index : Z)
    (rest : list string) (m : Mesh)
    : option (Z * string * meshv1.JoinMeshResponse) :=
  match rest with
  | [] => None
  | target :: rest' =>
      match candidateReply targets index target m with
      | Some (Response r) => Some (index, target, r)
      | Some _ =>
          match JoinBody targets index target None m with
          | Continue _ m' => firstResponse targets (index + 1) rest' m'
          | _ => None
          end
      | None => None
      end
  end.

(** The state in which Join enters the candidate loop. *)
Definition started (m : Mesh) : Mesh :=
  logw "join-routine" DebugLevel "Starting" [] m.

(** The indexes of the passes through the loop body that a trace shows,
    newest first, as they were logged. *)
Definition loggedIndex (e : Event) : option string :=
  match e with
  | EvLog logger DebugLevel msg (i :: _) =>
      if bool_decide (msg = "Index %+v Targets: %+v") &&
         bool_decide (logger = "join-routine")
      then Some i else None
  | _ => None
  end.

Definition loggedIndexes (tr : list Event) : list string :=
  omap loggedIndex tr.

(** ** Vocabulary for statements about NodeDiscovery and Rtt *)

(** The error that NodeDiscovery meets, if any: that of initClient, or
    else that of the call. *)
Definition discoveryError (m : Mesh) (toNode newNode : meshv1.Node)
    : option error :=
  match initClient m toNode with
  | Returns (Some e) _ => Some e
  | Returns None m =>
      match clients m !! GetId toNode with
      | None => None
      | Some c =>
          (callUnary m (client c)
             (ReqNodeDiscovery (discoveryRequest m newNode))).1
      end
  | _ => None
  end.

(** The readings of the clock that a trace shows, newest first. *)
Definition clockReadings (tr : list Event) : list Time :=
  omap (fun e => match e with EvNow t => Some t | _ => None end) tr.

(** [m'] is [m] after the events [Δ], newest first. *)
Definition after (m : Mesh) (Δ : list Event) (m' : Mesh) : Prop :=
  trace m' = Δ ++ trace m.

(** What one pass through the loop body leaves in the trace: its index,
    logged once, and one call of initClient. *)
Definition indexLogged (index : Z) (m m' : Mesh) : Prop :=
  setupConfig m' = setupConfig m /\ mu m' = mu m /\
  exists Δ, after m Δ m' /\ loggedIndexes Δ = [FormatInt index] /\
    length (filter isInitClient Δ) = 1%nat.

(** What a run of [n] passes from index [index] leaves behind. *)
Definition passesLogged (index : Z) (n : nat) (m m' : Mesh) : Prop :=
  setupConfig m' = setupConfig m /\ mu m' = mu m /\
  exists Δ, after m Δ m' /\
    loggedIndexes Δ = rev (FormatInt <$> seqZ index (Z.of_nat n)) /\
    length (filter isInitClient Δ) = n.

(** The record under which Join saves the candidate that answered. *)
Definition joinedPeer (target : string) (r : meshv1.JoinMeshResponse)
    : data.Node :=
  Convert {| meshv1.Name := meshv1.MyName r; meshv1.Target := target |}
    (NODE_OK env).

(** ** Vocabulary for statements about the client cache *)

(** The entry that initClient writes for a node dialled with the
    credentials [cred]: the stub sits on the connection of the entry, and
    the connection carries the timeout interceptor. *)
Definition pooledConn (to : meshv1.Node) (cred : TransportCredentials)
    : ClientConn :=
  {| connTarget := meshv1.Target to;
     connOpts := [WithTransportCredentials cred; WithUnaryInterceptor] |}.

Definition pooledClient (to : meshv1.Node) (cred : TransportCredentials)
    : MeshClient :=
  {| conn := pooledConn to cred; client := pooledConn to cred |}.

(** Every cached client is as initClient builds one. *)
Definition pooled (m : Mesh) : Prop :=
  forall id c, clients m !! id = Some c ->
    client c = conn c /\ WithUnaryInterceptor ∈ connOpts (conn c).

(** No cached client of [m] is missing or replaced in [m']. *)
Definition keepsClients (m m' : Mesh) : Prop :=
  forall id c, clients m !! id = Some c -> clients m' !! id = Some c.

(** The connection that Rtt dials for a peer: blocking, without the
    timeout interceptor. *)
Definition rttConn (peer : data.Node) (cred : TransportCredentials)
    : ClientConn :=
  {| connTarget := data.Target peer;
     connOpts := [WithTransportCredentials cred; WithBlock] |}.

(** What every operation but closeClient keeps: the configuration, the
    lock, the cached clients, the samples, and the form of the cache. *)
Definition stable (m m' : Mesh) : Prop :=
  setupConfig m' = setupConfig m /\
  routineConfig m' = routineConfig m /\
  mu m' = mu m /\
  keepsClients m m' /\
  samples (database m') = samples (database m) /\
  (pooled m -> pooled m').

Definition isClose (e : Event) : bool :=
  match e with EvClose _ => true | _ => false end.

(** The trace up to and including the newest dial: what grpc.Dial was
    asked with. *)
Fixpoint sinceDial (tr : list Event) : list Event :=
  match tr with
  | [] => []
  | e :: tr' => if isDial e then tr else sinceDial tr'
  end.

(** The number that a decimal string stands for, as strconv.ParseInt reads
    what FormatInt writes. *)
Definition ParseInt (s : string) : option Z :=
  Z.of_int <$> NilZero.int_of_string s.

(** What a run of the loop body, or of the loop, leaves behind, with a
    bound [n] on the dials and on the calls. *)
Definition quietRun (n : nat) (m m' : Mesh) : Prop :=
  stable m m' /\
  exists Δ, after m Δ m' /\
    (length (filter isDial Δ) <= n)%nat /\
    (length (filter isInvoke Δ) <= n)%nat /\
    filter isClose Δ = [] /\ filter isObservation Δ = [].

End Client.

(** * A concrete world, to run the operations *)

Module Scenario.

(** FNV-1a on 32 bits, an instance of the hash. *)
Definition fnv32a (s : string) : Z :=
  fold_left
    (fun h c => (Z.lxor h (Z.of_N (Ascii.N_of_ascii c)) * 16777619) mod 2 ^ 32)
    (list_ascii_of_string s) 2166136261.

Definition peerA : meshv1.Node := {| meshv1.Name := "a"; meshv1.Target := "a:8081" |}.
Definition peerB : meshv1.Node := {| meshv1.Name := "b"; meshv1.Target := "b:8081" |}.
Definition me : meshv1.Node := {| meshv1.Name := "me"; meshv1.Target := "me:8081" |}.

(** Addresses that start with "bad" refuse the connection; "good" accepts
    the name, "taken" reports a name collision, any other address
    fails the call. *)
Definition world : Env :=
  {| Hash := fnv32a;
     LoadClientTLSCredentials := fun _ _ _ => inl "no certificate";
     Dial := fun _ target _ =>
       if String.prefix "bad" target then Some "connection refused" else None;
     JoinMeshReply := fun _ cc _ =>
       if String.eqb (connTarget cc) "good" then
         inr {| meshv1.NameUnique := true; meshv1.MyName := "good-node";
                meshv1.Nodes := [peerA; peerB; me] |}
       else if String.eqb (connTarget cc) "taken" then
         inr {| meshv1.NameUnique := false; meshv1.MyName := EmptyString;
                meshv1.Nodes := [] |}
       else inl "deadline exceeded";
     UnaryReply := fun _ cc _ =>
       if String.eqb (connTarget cc) "down" then Some "deadline exceeded"
       else None;
     CloseReply := fun _ _ => None;
     Clock := fun h =>
       {| ext := 1000 * Z.of_nat (length h); unixSec := 1700000000 |};
     Random := fun h => length h;
     NODE_OK := 1;
     RTT_TOTAL := 1;
     RTT_REQUEST := 2;
     SampleName := fun k => if k =? 1 then "rtt_total" else "rtt_request" |}.

Definition fresh : Mesh :=
  {| setupConfig :=
       {| config.Name := "me"; config.JoinAddress := "me:8081";
          config.ListenAddress := "0.0.0.0"; config.ListenPort := 8081;
          config.DebugGrpc := false; config.CaCertPath := EmptyString;
          config.CaCert := EmptyString |};
     routineConfig := {| config.RequestTimeout := 3000000000 |};
     clients := ∅;
     database := {| nodes := ∅; samples := ∅ |};
     mu := false;
     trace := [] |}.

Definition goodContact : meshv1.Node :=
  {| meshv1.Name := "n"; meshv1.Target := "good" |}.

Definition badContact : meshv1.Node :=
  {| meshv1.Name := "n"; meshv1.Target := "bad1" |}.

(** What "good" answers to JoinMesh. *)
Definition accepted : meshv1.JoinMeshResponse :=
  {| meshv1.NameUnique := true; meshv1.MyName := "good-node";
     meshv1.Nodes := [peerA; peerB; me] |}.

(** What "taken" answers to JoinMesh. *)
Definition collision : meshv1.JoinMeshResponse :=
  {| meshv1.NameUnique := false; meshv1.MyName := EmptyString; meshv1.Nodes := [] |}.

(** The mesh after [Join ["good"]]: three nodes in state OK. *)
Definition joined : Mesh :=
  match Join world fresh ["good"] with
  | Returns _ m => m
  | _ => fresh
  end.

(** The mesh after one round of Rtt from [joined]. *)
Definition measured : Mesh :=
  match Rtt world joined with
  | Returns _ m => m
  | _ => joined
  end.

Definition at_ns (ns : Z) : Time := {| ext := ns; unixSec := 1700000000 |}.

(** The same world with the network down: every dial and every close
    fails. *)
Definition offline : Env :=
  {| Hash := fnv32a;
     LoadClientTLSCredentials := LoadClientTLSCredentials world;
     Dial := fun _ _ _ => Some "network is unreachable";
     JoinMeshReply := JoinMeshReply world;
     UnaryReply := UnaryReply world;
     CloseReply := fun _ _ => Some "close failed";
     Clock := Clock world;
     Random := Random world;
     NODE_OK := NODE_OK world;
     RTT_TOTAL := RTT_TOTAL world;
     RTT_REQUEST := RTT_REQUEST world;
     SampleName := SampleName world |}.

(** Another name at the address of [goodContact]. *)
Definition namesake : meshv1.Node :=
  {| meshv1.Name := "other"; meshv1.Target := "good" |}.

(** The client that the sample world caches for "good". *)
Definition goodClient : MeshClient := pooledClient goodContact InsecureCredentials.

(** [fresh] after [initClient goodContact], and after closing it again. *)
Definition opened : Mesh :=
  match initClient world fresh goodContact with
  | Returns _ m => m
  | _ => fresh
  end.

Definition reclosed : Mesh :=
  match closeClient world opened goodContact with
  | Returns _ m => m
  | _ => opened
  end.

(** [joined] after [closeClient goodContact]. *)
Definition closed : Mesh :=
  match closeClient world joined goodContact with
  | Returns _ m => m
  | _ => joined
  end.

(** [joined] after a closeClient whose Close fails: the lock is still
    held. *)
Definition stuck : Mesh :=
  match closeClient offline joined goodContact with
  | Returns _ m => m
  | _ => joined
  end.

(** The mesh after [Join ["bad1"; "bad2"]], where no candidate can be
    dialled. *)
Definition refused : Mesh :=
  match Join world fresh ["bad1"; "bad2"] with
  | Returns _ m => m
  | _ => fresh
  end.

End Scenario.

(** * Properties *)

Section Properties.

Variable env : Env.

Lemma after_refl m : after m [] m.
Proof. reflexivity. Qed.

Lemma after_trans m1 m2 m3 Δ1 Δ2 :
  after m1 Δ1 m2 -> after m2 Δ2 m3 -> after m1 (Δ2 ++ Δ1) m3.
Proof.
  unfold after. intros H1 H2. rewrite H2, H1. apply app_assoc.
Qed.

Lemma filter_bool_cons (f : Event -> bool) e l :
  filter f (e :: l) = if f e then e :: filter f l else filter f l.
Proof.
  rewrite filter_cons. destruct (f e); case_decide; done.
Qed.

Lemma clockReadings_cons e tr :
  clockReadings (e :: tr) =
  match e with EvNow t => t :: clockReadings tr | _ => clockReadings tr end.
Proof. destruct e; reflexivity. Qed.

Lemma loggedIndexes_app Δ1 Δ2 :
  loggedIndexes (Δ1 ++ Δ2) = loggedIndexes Δ1 ++ loggedIndexes Δ2.
Proof. apply omap_app. Qed.

Lemma after_emit m Δ m' e : after m Δ m' -> after m (e :: Δ) (emit e m').
Proof. unfold after. cbn. intros ->. reflexivity. Qed.

Lemma after_setDatabase m Δ m' d : after m Δ m' -> after m Δ (setDatabase d m').
Proof. exact id. Qed.

Lemma after_setClients m Δ m' c : after m Δ m' -> after m Δ (setClients c m').
Proof. exact id. Qed.

Lemma after_setMu m Δ m' b : after m Δ m' -> after m Δ (setMu b m').
Proof. exact id. Qed.

(** Push the events of the goal state onto an open list of events. *)
Ltac chain H :=
  repeat first [ eapply after_emit | eapply after_setDatabase
               | eapply after_setClients | eapply after_setMu ];
  exact H.

Ltac delta_with l := exists l; split; [ reflexivity | ].

Ltac delta :=
  first [ delta_with (@nil Event)
        | eexists [_]; split; [ reflexivity | ]
        | eexists [_; _]; split; [ reflexivity | ]
        | eexists [_; _; _]; split; [ reflexivity | ]
        | eexists [_; _; _; _]; split; [ reflexivity | ]
        | eexists [_; _; _; _; _]; split; [ reflexivity | ]
        | eexists [_; _; _; _; _; _]; split; [ reflexivity | ] ].

(** ** The connection manager *)

(** The paths through initClient, one goal each. *)
Ltac initClient_paths m to :=
  unfold initClient, transportOption, grpcDial, Lock, Unlock, after; cbn;
  destruct (config.DebugGrpc (setupConfig m)); cbn;
  (destruct (clients m !! GetId env to) eqn:?Hc; cbn;
   [ | destruct (LoadClientTLSCredentials env _ _ _); cbn;
       (destruct (Dial env _ _ _) eqn:?Hd; cbn;
        [ | destruct (mu m) eqn:?Hmu; cbn ]) ]).

(** initClient never panics, and it waits for the lock only when the
    lock is held on entry. *)
Lemma initClient_ends m to :
  match initClient env m to with
  | Returns _ _ => True
  | Panics => False
  | Blocks _ => mu m = true /\ clients m !! GetId env to = None
  end.
Proof. initClient_paths m to; done. Qed.

Lemma initClient_free m to :
  mu m = false -> exists err m1, initClient env m to = Returns err m1.
Proof.
  intros Hmu. pose proof (initClient_ends m to) as H.
  destruct (initClient env m to) as [err m1| |m1]; [eauto|done|].
  destruct H as [H _]. congruence.
Qed.

(** An initClient that returns touches neither the configuration, the
    store nor the lock; it logs no warning, makes no call, closes nothing
    and dials at most once; when it returns no error the client is
    cached. *)
Lemma initClient_frame m to err m1 :
  initClient env m to = Returns err m1 ->
  setupConfig m1 = setupConfig m /\ routineConfig m1 = routineConfig m /\
  database m1 = database m /\ mu m1 = mu m /\
  (err = None -> is_Some (clients m1 !! GetId env to)) /\
  exists Δ, after m Δ m1 /\
    loggedIndexes Δ = [] /\ filter isInvoke Δ = [] /\
    filter isWarning Δ = [] /\ filter isObservation Δ = [] /\
    filter isClose Δ = [] /\
    length (filter isInitClient Δ) = 1%nat /\
    (length (filter isDial Δ) <= 1)%nat /\
    (is_Some (clients m !! GetId env to) -> filter isNetwork Δ = []).
Proof.
  initClient_paths m to; intros H; try discriminate; injection H as <- <-; cbn;
    (repeat split; [ try discriminate; try (intros _; rewrite lookup_insert_eq); eauto | ]);
    delta; repeat split; auto; intros [? ?]; discriminate.
Qed.

(** A cached id: the client is returned as it is. *)
Lemma initClient_cached m to c :
  clients m !! GetId env to = Some c ->
  exists m1,
    initClient env m to = Returns None m1 /\
    clients m1 = clients m /\
    exists Δ, after m Δ m1 /\ filter isNetwork Δ = [].
Proof.
  intros Hc0. initClient_paths m to; try congruence;
    eexists; (split; [reflexivity|]); (split; [reflexivity|]); delta; reflexivity.
Qed.

(** An id that is not cached: one dial, and the outcome is the answer of
    the dial, unless the lock is held when the client is to be cached. *)
Lemma initClient_uncached m to :
  clients m !! GetId env to = None ->
  exists cred,
    match initClient env m to with
    | Returns err m1 =>
        clients m1 =
          match err with
          | None => <[GetId env to := pooledClient to cred]> (clients m)
          | Some _ => clients m
          end /\
        (err = None -> mu m = false) /\
        err = Dial env (sinceDial (trace m1)) (meshv1.Target to)
                (connOpts (pooledConn to cred)) /\
        exists Δ, after m Δ m1 /\
          filter isNetwork Δ =
            [EvDial (meshv1.Target to) (connOpts (pooledConn to cred))]
    | Panics => False
    | Blocks m1 =>
        mu m = true /\ clients m1 = clients m /\
        Dial env (sinceDial (trace m1)) (meshv1.Target to)
          (connOpts (pooledConn to cred)) = None /\
        exists Δ, after m Δ m1 /\
          filter isNetwork Δ =
            [EvDial (meshv1.Target to) (connOpts (pooledConn to cred))]
    end.
Proof.
  intros Hc0. initClient_paths m to; try congruence;
    eexists; (repeat split; [try done; symmetry; eassumption..|]);
    delta; reflexivity.
Qed.

(** ** The body of the candidate loop *)

(** The body never panics; what it does is decided by what the candidate
    answers, and it comes to no answer only by waiting for the lock. *)
Lemma JoinBody_cases targets index target m :
  match candidateReply env targets index target m with
  | None =>
      mu m = true /\
      exists m', JoinBody env targets index target None m = BodyBlocks m'
  | Some (Response r) =>
      exists m',
        JoinBody env targets index target None m =
          (if meshv1.NameUnique r then Break (Some r) m'
           else Return (true, false) m') /\
        database m' =
          (if meshv1.NameUnique r
           then SetNode env (joinedPeer env target r) (database m)
           else database m) /\
        indexLogged index m m'
  | Some _ =>
      exists m',
        JoinBody env targets index target None m =
          (if bool_decide (index ≠ Z.of_nat (length targets) - 1)
           then Continue None m' else Return (false, true) m') /\
        database m' = database m /\
        indexLogged index m m'
  end.
Proof.
  unfold candidateReply, JoinBody, indexLogged.
  set (m0 := logw _ _ _ _ m).
  set (node := {| meshv1.Name := EmptyString; meshv1.Target := target |}).
  pose proof (initClient_ends m0 node) as Hends.
  pose proof (initClient_frame m0 node) as Hframe.
  destruct (initClient env m0 node) as [err m1| |m1]; [|done|].
  2: { destruct Hends as [Hmu _]. split; [exact Hmu|]. eauto. }
  destruct (Hframe _ _ eq_refl)
    as (Hcfg & _ & Hdb & Hmu & Hcl & Δ & HΔ & Hidx & _ & _ & _ & _ & Hinit & _).
  pose proof (after_trans m m0 _ _ _ (after_emit m [] m _ (after_refl m)) HΔ) as H0.
  assert (Hcount : length (filter isInitClient
            (Δ ++ [EvLog "join-routine" DebugLevel "Index %+v Targets: %+v"
                     [FormatInt index; formatStrings targets]])) = 1%nat)
    by (rewrite filter_app, length_app, Hinit; reflexivity).
  destruct err as [e|]; cbn in Hcfg, Hdb, Hmu, Hcl, H0 |- *.
  - case_bool_decide; eexists; (split; [reflexivity|]); cbn;
      (split; [exact Hdb|]); (split; [exact Hcfg|]); (split; [exact Hmu|]);
      (eexists; split; [chain H0|]);
      rewrite !filter_bool_cons; cbn;
      rewrite loggedIndexes_app, Hidx; (split; [reflexivity|exact Hcount]).
  - destruct (Hcl eq_refl) as [c Hc]. rewrite Hc.
    unfold callJoinMesh, invoke. cbn.
    destruct (JoinMeshReply env _ _ _) as [e|r]; cbn.
    + case_bool_decide; eexists; (split; [reflexivity|]); cbn;
        (split; [exact Hdb|]); (split; [exact Hcfg|]); (split; [exact Hmu|]);
        (eexists; split; [chain H0|]);
        rewrite !filter_bool_cons; cbn;
        rewrite loggedIndexes_app, Hidx; (split; [reflexivity|exact Hcount]).
    + destruct (meshv1.NameUnique r); cbn; eexists; (split; [reflexivity|]); cbn;
        (split; [unfold joinedPeer; rewrite ?Hdb; reflexivity|]);
        (split; [exact Hcfg|]); (split; [exact Hmu|]);
        (eexists; split; [chain H0|]);
        rewrite !filter_bool_cons; cbn;
        rewrite loggedIndexes_app, Hidx; (split; [reflexivity|exact Hcount]).
Qed.

(** ** The candidate loop *)

Lemma rev_indexes_cons (index n : Z) :
  0 < n ->
  rev (FormatInt <$> seqZ index n) =
  rev (FormatInt <$> seqZ (index + 1) (n - 1)) ++ [FormatInt index].
Proof.
  intros Hn. rewrite (seqZ_cons index n) by exact Hn.
  rewrite fmap_cons. cbn [rev].
  replace (Z.succ index) with (index + 1) by lia.
  replace (Z.pred n) with (n - 1) by lia. reflexivity.
Qed.

Lemma passesLogged_cons index n m m1 m' :
  indexLogged index m m1 -> passesLogged (index + 1) n m1 m' ->
  passesLogged index (S n) m m'.
Proof.
  intros (Hc1 & Hm1 & Δ1 & HΔ1 & Hi1 & Hn1) (Hc2 & Hm2 & Δ2 & HΔ2 & Hi2 & Hn2).
  split; [congruence|]. split; [congruence|].
  exists (Δ2 ++ Δ1). split; [eapply after_trans; eassumption|].
  rewrite loggedIndexes_app, filter_app, length_app, Hi1, Hi2, Hn1, Hn2.
  split; [|lia].
  rewrite (rev_indexes_cons index (Z.of_nat (S n))) by lia.
  replace (Z.of_nat (S n) - 1) with (Z.of_nat n) by lia. reflexivity.
Qed.

(** The loop over a non-empty rest of the candidates finds a first
    response, and stops there, or sees every candidate fail, or waits for
    the lock. *)
Lemma JoinLoop_cases targets rest :
  forall index m,
    rest ≠ [] ->
    Z.of_nat (length targets) = index + Z.of_nat (length rest) ->
    match firstResponse env targets index rest m with
    | Some (k, c, r) =>
        everyCandidateFails env targets index rest m = false /\
        index <= k < index + Z.of_nat (length rest) /\ c ∈ rest /\
        exists m',
          JoinLoop env targets index rest None m =
            (if meshv1.NameUnique r then Fallthrough (Some r) m'
             else Returned (true, false) m') /\
          database m' =
            (if meshv1.NameUnique r
             then SetNode env (joinedPeer env c r) (database m)
             else database m) /\
          passesLogged index (Z.to_nat (k - index + 1)) m m'
    | None =>
        if everyCandidateFails env targets index rest m then
          exists m',
            JoinLoop env targets index rest None m = Returned (false, true) m' /\
            database m' = database m /\
            passesLogged index (length rest) m m'
        else
          mu m = true /\
          exists m', JoinLoop env targets index rest None m = LoopBlocks m'
    end.
Proof.
  induction rest as [|target rest' IH]; intros index m Hne Hlen; [done|].
  pose proof (JoinBody_cases targets index target m) as Hbody.
  cbn [firstResponse everyCandidateFails JoinLoop].
  destruct (candidateReply env targets index target m) as [[e|e|r]|].
  4: { destruct Hbody as (Hmu & m' & Hb). rewrite Hb. cbn. eauto. }
  3: { destruct Hbody as (m' & Hb & Hdb & Hlog).
       cbn [isFailure andb]. split; [reflexivity|].
       split; [cbn [length]; lia|]. split; [left|].
       exists m'. rewrite Hb.
       split; [destruct (meshv1.NameUnique r); reflexivity|].
       split; [exact Hdb|].
       replace (index - index + 1) with 1 by lia. exact Hlog. }
  all: destruct Hbody as (m' & Hb & Hdb & Hlog);
    cbn [isFailure andb]; rewrite Hb;
    destruct rest' as [|target' rest''].
  all: try (
    (* the last candidate *)
    rewrite bool_decide_eq_false_2 by (cbn [length] in Hlen; lia);
    exists m'; split; [reflexivity|]; split; [exact Hdb|]; exact Hlog).
  all: rewrite bool_decide_eq_true_2 by (cbn [length] in Hlen; lia);
    (assert (Hlen' : Z.of_nat (length targets) =
               index + 1 + Z.of_nat (length (target' :: rest'')))
       by (cbn [length] in *; lia));
    (assert (Hne' : target' :: rest'' ≠ []) by discriminate);
    pose proof (IH (index + 1) m' Hne' Hlen') as IH'; clear IH;
    destruct Hlog as (Hcfg0 & Hmu0 & HΔ0);
    pose proof (conj Hcfg0 (conj Hmu0 HΔ0) : indexLogged index m m') as Hlog;
    destruct (firstResponse env targets (index + 1) (target' :: rest'') m')
      as [[[k c] r]|].
  1,3: (
    destruct IH' as (Hf & Hk & Hc & m'' & Hl & Hdb' & Hp);
    split; [exact Hf|]; split; [cbn [length] in *; lia|];
    split; [right; exact Hc|];
    exists m''; split; [exact Hl|];
    split; [rewrite Hdb', Hdb; reflexivity|];
    replace (Z.to_nat (k - index + 1)) with (S (Z.to_nat (k - (index + 1) + 1)))
      by lia;
    exact (passesLogged_cons _ _ _ _ _ Hlog Hp)).
  all: destruct (everyCandidateFails env targets (index + 1) (target' :: rest'') m').
  1,3: (
    destruct IH' as (m'' & Hl & Hdb' & Hp);
    exists m''; split; [exact Hl|]; split; [congruence|];
    exact (passesLogged_cons _ _ _ _ _ Hlog Hp)).
  all: destruct IH' as (Hmu' & m'' & Hl); split; [congruence|]; eauto.
Qed.

(** ** The loop over the nodes of the response *)

Lemma SetNode_Convert_lookup node state db id :
  nodes (SetNode env (Convert env node state) db) !! id =
  if decide (GetId env node = id) then Some (Convert env node state)
  else nodes db !! id.
Proof.
  unfold SetNode, Convert, GetId. cbn. rewrite lookup_insert.
  destruct (decide (Hash env (meshv1.Target node) = id)); reflexivity.
Qed.

Lemma saveNodes_snoc nl node m :
  saveNodes env (nl ++ [node]) m =
  let m' := saveNodes env nl m in
  if bool_decide (GetId env node ≠ GetId env (self m'))
  then setDatabase (SetNode env (Convert env node (NODE_OK env)) (database m')) m'
  else m'.
Proof. unfold saveNodes. rewrite fold_left_app. reflexivity. Qed.

Lemma saveNodes_frame nl m :
  setupConfig (saveNodes env nl m) = setupConfig m /\
  clients (saveNodes env nl m) = clients m /\
  mu (saveNodes env nl m) = mu m /\
  trace (saveNodes env nl m) = trace m.
Proof.
  induction nl as [|node nl IH] using rev_ind; [done|].
  rewrite saveNodes_snoc. cbn zeta. case_bool_decide; cbn; exact IH.
Qed.

Lemma saveNodes_self nl m : self (saveNodes env nl m) = self m.
Proof. unfold self. destruct (saveNodes_frame nl m) as [-> _]. reflexivity. Qed.

(** A listed node whose id is not the local one ends up in the store, in
    state OK, as the last listed node of that id left it. *)
Lemma saveNodes_stored nl m node :
  node ∈ nl -> GetId env node ≠ GetId env (self m) ->
  exists node', node' ∈ nl /\ GetId env node' = GetId env node /\
    nodes (database (saveNodes env nl m)) !! GetId env node =
      Some (Convert env node' (NODE_OK env)).
Proof.
  induction nl as [|last nl IH] using rev_ind; intros Hin Hid.
  - by apply elem_of_nil in Hin.
  - rewrite saveNodes_snoc. cbn zeta. rewrite saveNodes_self.
    destruct (decide (GetId env last = GetId env node)) as [Heq|Hne].
    + rewrite bool_decide_eq_true_2 by congruence.
      exists last. split; [apply elem_of_app; right; apply list_elem_of_singleton; reflexivity|].
      split; [exact Heq|].
      cbn [database setDatabase]. rewrite SetNode_Convert_lookup.
      by rewrite decide_True.
    + assert (Hin' : node ∈ nl).
      { apply elem_of_app in Hin as [?|Hl]; [done|].
        apply list_elem_of_singleton in Hl. congruence. }
      destruct (IH Hin' Hid) as (node' & Hn' & Hid' & Hl).
      exists node'. split; [apply elem_of_app; left; exact Hn'|].
      split; [exact Hid'|].
      case_bool_decide; cbn [database setDatabase]; [|exact Hl].
      rewrite SetNode_Convert_lookup. by rewrite decide_False.
Qed.

(** The loop writes under no id but those of the listed nodes, and never
    under the local id. *)
Lemma saveNodes_other nl m id :
  (id = GetId env (self m) \/ forall node, node ∈ nl -> GetId env node ≠ id) ->
  nodes (database (saveNodes env nl m)) !! id = nodes (database m) !! id.
Proof.
  induction nl as [|last nl IH] using rev_ind; intros Hid; [done|].
  rewrite saveNodes_snoc. cbn zeta. rewrite saveNodes_self.
  assert (IH' : nodes (database (saveNodes env nl m)) !! id = nodes (database m) !! id).
  { apply IH. destruct Hid as [?|Hid]; [by left|right].
    intros node Hn. apply Hid. apply elem_of_app. left. exact Hn. }
  case_bool_decide as Hlast; cbn [database setDatabase]; [|exact IH'].
  rewrite SetNode_Convert_lookup, decide_False; [exact IH'|].
  destruct Hid as [->|Hid]; [exact Hlast|]. apply Hid.
  apply elem_of_app. right. apply list_elem_of_singleton. reflexivity.
Qed.

(** ** Join *)

Lemma length_zero_start (targets : list string) :
  Z.of_nat (length targets) = 0 + Z.of_nat (length targets).
Proof. lia. Qed.

(** C5.  When every candidate of a non-empty list fails, by a connection
    failure or by a failed call, Join passes through the candidates
    in order, one pass per candidate, and returns (false, true) after the
    last one; the store is left as it was. *)
Theorem Join_every_candidate_fails m targets :
  targets ≠ [] ->
  everyCandidateFails env targets 0 targets (started m) = true ->
  exists m',
    Join env m targets = Returns (false, true) m' /\
    database m' = database m /\
    exists Δ, after (started m) Δ m' /\
      loggedIndexes Δ =
        rev (FormatInt <$> seqZ 0 (Z.of_nat (length targets))).
Proof.
  intros Hne Hall.
  pose proof (JoinLoop_cases targets targets 0 (started m) Hne
                (length_zero_start targets)) as H.
  destruct (firstResponse env targets 0 targets (started m)) as [[[k c] r]|].
  - destruct H as (Hf & _). congruence.
  - rewrite Hall in H.
    destruct H as (m' & Hl & Hdb & _ & _ & Δ & HΔ & Hidx & _).
    exists m'. unfold Join. fold (started m). rewrite Hl.
    split; [reflexivity|]. split; [exact Hdb|]. exists Δ. done.
Qed.

(** C4.  When the first candidate that sends a response reports that the
    name is not unique, Join returns (true, false) at once: the passes
    through the loop are those of the indexes 0 to k, where k is the index
    of that candidate, and no candidate after it is tried. *)
Theorem Join_name_not_unique m targets k c r :
  firstResponse env targets 0 targets (started m) = Some (k, c, r) ->
  meshv1.NameUnique r = false ->
  exists m',
    Join env m targets = Returns (true, false) m' /\
    database m' = database m /\
    0 <= k < Z.of_nat (length targets) /\
    exists Δ, after (started m) Δ m' /\
      loggedIndexes Δ = rev (FormatInt <$> seqZ 0 (k + 1)).
Proof.
  intros Hfirst Hunique.
  assert (Hne : targets ≠ []) by (intros ->; discriminate).
  pose proof (JoinLoop_cases targets targets 0 (started m) Hne
                (length_zero_start targets)) as H.
  rewrite Hfirst, Hunique in H.
  destruct H as (_ & Hk & _ & m' & Hl & Hdb & _ & _ & Δ & HΔ & Hidx & _).
  exists m'. unfold Join. fold (started m). rewrite Hl.
  repeat split; try done; try lia.
  exists Δ. split; [exact HΔ|].
  rewrite Hidx. replace (k - 0 + 1) with (k + 1) by lia.
  rewrite Z2Nat.id by lia. reflexivity.
Qed.

(** C1, as the code has it.  When the first candidate that sends a
    response accepts the name, Join returns (true, true).  Join returns
    (false, true) only after every candidate has been tried and has failed:
    no candidate has sent a response, the passes through the loop are those
    of all the indexes, in order, and initClient has been called once for
    each candidate. *)
Theorem Join_unique_name m targets :
  targets ≠ [] ->
  (forall k c r,
      firstResponse env targets 0 targets (started m) = Some (k, c, r) ->
      meshv1.NameUnique r = true ->
      exists m', Join env m targets = Returns (true, true) m') /\
  (forall m',
      Join env m targets = Returns (false, true) m' ->
      everyCandidateFails env targets 0 targets (started m) = true /\
      firstResponse env targets 0 targets (started m) = None /\
      exists Δ, after (started m) Δ m' /\
        loggedIndexes Δ =
          rev (FormatInt <$> seqZ 0 (Z.of_nat (length targets))) /\
        length (filter isInitClient Δ) = length targets).
Proof.
  intros Hne.
  pose proof (JoinLoop_cases targets targets 0 (started m) Hne
                (length_zero_start targets)) as H.
  split.
  - intros k c r Hfirst Hunique. rewrite Hfirst, Hunique in H.
    destruct H as (_ & _ & _ & m' & Hl & _).
    eexists. unfold Join. fold (started m). rewrite Hl. reflexivity.
  - intros m' HJ. unfold Join in HJ. fold (started m) in HJ.
    destruct (firstResponse env targets 0 targets (started m)) as [[[k c] r]|].
    + destruct H as (_ & _ & _ & m'' & Hl & _). rewrite Hl in HJ.
      destruct (meshv1.NameUnique r); discriminate.
    + destruct (everyCandidateFails env targets 0 targets (started m)).
      * destruct H as (m'' & Hl & _ & _ & _ & Δ & HΔ & Hidx & Hn).
        rewrite Hl in HJ. injection HJ as <-.
        split; [reflexivity|]. split; [reflexivity|]. exists Δ. done.
      * destruct H as (_ & m'' & Hl). rewrite Hl in HJ. discriminate.
Qed.

(** C6.  After a response that accepts the name, every listed node whose
    id is not the local one, the hash of the join address, is in the store
    in state OK, under its id, as the last listed node of that id describes
    it; under the local id the store holds what it held after the joined
    peer was saved; and the ids of no listed node are as they were then. *)
Theorem Join_saves_listed_nodes m targets k c r :
  firstResponse env targets 0 targets (started m) = Some (k, c, r) ->
  meshv1.NameUnique r = true ->
  exists m',
    Join env m targets = Returns (true, true) m' /\
    (forall node,
        node ∈ meshv1.Nodes r ->
        GetId env node ≠ Hash env (config.JoinAddress (setupConfig m)) ->
        exists node',
          node' ∈ meshv1.Nodes r /\ GetId env node' = GetId env node /\
          nodes (database m') !! GetId env node =
            Some (Convert env node' (NODE_OK env)) /\
          data.State (Convert env node' (NODE_OK env)) = NODE_OK env) /\
    (forall id,
        id = Hash env (config.JoinAddress (setupConfig m)) \/
        (forall node, node ∈ meshv1.Nodes r -> GetId env node ≠ id) ->
        nodes (database m') !! id =
          nodes (SetNode env (joinedPeer env c r) (database m)) !! id).
Proof.
  intros Hfirst Hunique.
  assert (Hne : targets ≠ []) by (intros ->; discriminate).
  pose proof (JoinLoop_cases targets targets 0 (started m) Hne
                (length_zero_start targets)) as H.
  rewrite Hfirst, Hunique in H.
  destruct H as (_ & _ & _ & m1 & Hl & Hdb & Hcfg & _).
  assert (Hself : self m1 = self m) by (unfold self; rewrite Hcfg; reflexivity).
  change (Hash env (config.JoinAddress (setupConfig m)))
    with (GetId env (self m)).
  eexists. unfold Join. fold (started m). rewrite Hl.
  split; [reflexivity|]. split.
  - intros node Hin Hid.
    destruct (saveNodes_stored (meshv1.Nodes r) m1 node Hin) as (node' & ? & ? & ?);
      [rewrite Hself; exact Hid|].
    exists node'. done.
  - intros id Hid. rewrite saveNodes_other by (rewrite Hself; exact Hid).
    rewrite Hdb. reflexivity.
Qed.

(** C10.  With an empty list the candidate loop is skipped with the
    response still nil, and Join panics on it.  With a non-empty list Join
    never panics: it returns a pair, unless it has to wait for a lock that
    is held on entry. *)
Theorem Join_empty_list_panics m :
  JoinLoop env [] 0 [] None (started m) = Fallthrough None (started m) /\
  Join env m [] = Panics /\
  (forall targets, targets ≠ [] ->
     Join env m targets ≠ Panics /\
     (mu m = false -> exists r m', Join env m targets = Returns r m')).
Proof.
  split; [reflexivity|]. split; [reflexivity|].
  intros targets Hne.
  pose proof (JoinLoop_cases targets targets 0 (started m) Hne
                (length_zero_start targets)) as H.
  unfold Join. fold (started m).
  destruct (firstResponse env targets 0 targets (started m)) as [[[k c] r]|].
  - destruct H as (_ & _ & _ & m' & Hl & _). rewrite Hl.
    destruct (meshv1.NameUnique r); (split; [discriminate|eauto]).
  - destruct (everyCandidateFails env targets 0 targets (started m)).
    + destruct H as (m' & Hl & _). rewrite Hl. split; [discriminate|eauto].
    + destruct H as (Hmu & m' & Hl). rewrite Hl. split; [discriminate|].
      cbn in Hmu. congruence.
Qed.

(** ** NodeDiscovery *)

(** C9.  NodeDiscovery never panics and has no error to return.  When it
    returns, the store is as it was, at most one dial and at most one call
    have been made, and the error it has met, if any, is logged as one
    warning.  It returns whenever the lock is free on entry; it waits only
    for a lock that is held, when the client it has dialled is to be
    cached. *)
Theorem NodeDiscovery_swallows_errors m toNode newNode :
  match NodeDiscovery env m toNode newNode with
  | Returns _ m' =>
      database m' = database m /\
      exists Δ, after m Δ m' /\
        (length (filter isDial Δ) <= 1)%nat /\
        (length (filter isInvoke Δ) <= 1)%nat /\
        length (filter isWarning Δ) =
          match discoveryError env m toNode newNode with
          | Some _ => 1%nat
          | None => 0%nat
          end
  | Panics => False
  | Blocks _ => mu m = true /\ clients m !! GetId env toNode = None
  end /\
  (mu m = false ->
   exists m', NodeDiscovery env m toNode newNode = Returns tt m').
Proof.
  unfold NodeDiscovery, discoveryError.
  pose proof (initClient_ends m toNode) as Hends.
  pose proof (initClient_frame m toNode) as Hframe.
  destruct (initClient env m toNode) as [[e|] m1| |m1]; [| |done|].
  - destruct (Hframe _ _ eq_refl)
      as (_ & _ & Hdb & _ & _ & Δ & HΔ & _ & Hinv & Hwarn & _ & _ & _ & Hdial & _).
    split; [|eauto]. split; [exact Hdb|].
    eexists (_ :: Δ). split; [chain HΔ|].
    rewrite !filter_bool_cons, Hinv, Hwarn.
    remember (filter isDial Δ) as dials in *. cbn. repeat split; lia.
  - destruct (Hframe _ _ eq_refl)
      as (_ & _ & Hdb & _ & Hcl & Δ & HΔ & _ & Hinv & Hwarn & _ & _ & _ & Hdial & _).
    destruct (Hcl eq_refl) as [c Hc]. rewrite Hc.
    unfold callUnary, invoke. cbn.
    destruct (UnaryReply env _ _ _) as [e|]; (split; [|eauto]);
      (split; [exact Hdb|]).
    + eexists (_ :: _ :: Δ). split; [chain HΔ|].
      rewrite !filter_bool_cons, Hinv, Hwarn.
      remember (filter isDial Δ) as dials in *. cbn. repeat split; lia.
    + eexists (_ :: Δ). split; [chain HΔ|].
      rewrite !filter_bool_cons, Hinv, Hwarn.
      remember (filter isDial Δ) as dials in *. cbn. repeat split; lia.
  - split; [exact Hends|]. destruct Hends as [Hmu _]. congruence.
Qed.

(** ** pushSamples *)

(** C2, as the code has it.  With an empty sample list pushSamples makes
    no call, but it obtains the client first.  When a client is cached for
    the id of the node it reaches the network in no way and returns no
    error.  When none is cached it dials the target of the node, once, with the
    transport credentials and the timeout interceptor, and that
    dial is all it does on the network; what it returns is the answer of
    that dial, no error when the dial succeeds; it has nothing to return
    only when the dial succeeds while the lock is held, where it waits for
    the lock.  The store is as it was. *)
Theorem pushSamples_empty_list m node :
  GetSampleList (database m) = [] ->
  match clients m !! GetId env node with
  | Some _ =>
      exists m',
        pushSamples env m node = Returns None m' /\
        database m' = database m /\ clients m' = clients m /\
        exists Δ, after m Δ m' /\ filter isNetwork Δ = []
  | None =>
      exists cred,
        let opts := [WithTransportCredentials cred; WithUnaryInterceptor] in
        match pushSamples env m node with
        | Returns err m' =>
            err = Dial env (sinceDial (trace m')) (meshv1.Target node) opts /\
            (err = None -> mu m = false) /\
            database m' = database m /\
            exists Δ, after m Δ m' /\
              filter isNetwork Δ = [EvDial (meshv1.Target node) opts]
        | Panics => False
        | Blocks m' =>
            Dial env (sinceDial (trace m')) (meshv1.Target node) opts = None /\
            mu m = true /\
            exists Δ, after m Δ m' /\
              filter isNetwork Δ = [EvDial (meshv1.Target node) opts]
        end
  end.
Proof.
  intros Hempty. unfold pushSamples.
  pose proof (initClient_frame m node) as Hframe.
  destruct (clients m !! GetId env node) as [c|] eqn:Hc.
  - destruct (initClient_cached m node c Hc) as (m1 & Hi & Hcl & Δ & HΔ & Hnet).
    rewrite Hi. destruct (Hframe _ _ Hi) as (_ & _ & Hdb & _).
    rewrite Hdb, Hempty. cbn.
    eexists. split; [reflexivity|]. split; [exact Hdb|]. split; [exact Hcl|].
    eexists (_ :: Δ). split; [chain HΔ|].
    rewrite filter_bool_cons. exact Hnet.
  - destruct (initClient_uncached m node Hc) as (cred & Hu). exists cred.
    cbn zeta. change [WithTransportCredentials cred; WithUnaryInterceptor]
      with (connOpts (pooledConn node cred)).
    destruct (initClient env m node) as [[e|] m1| |m1]; [| |done|].
    + destruct (Hframe _ _ eq_refl) as (_ & _ & Hdb & _).
      destruct Hu as (_ & Hmu & Herr & Δ & HΔ & Hnet).
      split; [exact Herr|]. split; [exact Hmu|]. split; [exact Hdb|].
      eexists (_ :: Δ). split; [chain HΔ|].
      rewrite filter_bool_cons. exact Hnet.
    + destruct (Hframe _ _ eq_refl) as (_ & _ & Hdb & _).
      destruct Hu as (_ & Hmu & Herr & Δ & HΔ & Hnet).
      rewrite Hdb, Hempty. cbn.
      split; [exact Herr|]. split; [exact Hmu|]. split; [exact Hdb|].
      eexists (_ :: Δ). split; [chain HΔ|].
      rewrite filter_bool_cons. exact Hnet.
    + destruct Hu as (Hmu & _ & Herr & Δ & HΔ & Hnet).
      split; [exact Herr|]. split; [exact Hmu|]. exists Δ. done.
Qed.

(** ** closeClient *)

(** C3, what the code does.  For a node whose id has no cached client,
    closeClient never returns an error: once it has the lock it panics,
    the nil entry of the map being dereferenced before any error can be
    returned, and while the lock is held it waits for it. *)
Theorem closeClient_not_cached_panics m to :
  clients m !! GetId env to = None ->
  closeClient env m to = if mu m then Blocks m else Panics.
Proof.
  intros H. unfold closeClient, Lock.
  destruct (mu m); [reflexivity|]. cbn. rewrite H. reflexivity.
Qed.

(** ** Rtt *)

Lemma GetNodeListByState_none (db : Database) (state : Z) :
  (forall id n, nodes db !! id = Some n -> data.State n ≠ state) ->
  GetNodeListByState db state = [].
Proof.
  intros Hnone. unfold GetNodeListByState.
  destruct (filter _ _) as [|n l] eqn:Hf; [reflexivity|].
  assert (Hin : n ∈ filter (fun n => data.State n = state)
                      (map_to_list (nodes db)).*2)
    by (rewrite Hf; left).
  apply list_elem_of_filter in Hin as [Hstate Hin].
  apply list_elem_of_fmap in Hin as ([id n'] & -> & Hin).
  apply elem_of_map_to_list in Hin. by apply Hnone in Hin.
Qed.

(** C8.  When no node of the store is in state OK, Rtt returns without a
    dial, a call or a close, without an observation, and with the store
    and the cached clients as they were. *)
Theorem Rtt_no_node_in_state_OK m :
  (forall id n, nodes (database m) !! id = Some n ->
                data.State n ≠ NODE_OK env) ->
  exists m',
    Rtt env m = Returns tt m' /\
    database m' = database m /\
    clients m' = clients m /\
    exists Δ, after m Δ m' /\
      filter isNetwork Δ = [] /\ filter isObservation Δ = [].
Proof.
  intros Hnone. unfold Rtt, GetRandomNodeListByState, logw, emit.
  cbn [database]. rewrite (GetNodeListByState_none _ _ Hnone).
  eexists. split; [reflexivity|]. split; [reflexivity|].
  split; [reflexivity|]. eexists [_; _; _].
  split; [reflexivity|]. split; reflexivity.
Qed.

Lemma Sub_in_range (t u : Time) :
  0 <= ext t - ext u <= maxDuration -> Sub t u = ext t - ext u.
Proof.
  intros H. unfold Sub, maxDuration, minDuration in *.
  destruct (Z.ltb_spec (2 ^ 63 - 1) (ext t - ext u)); [lia|].
  destruct (Z.ltb_spec (ext t - ext u) (- 2 ^ 63)); [lia|]. reflexivity.
Qed.

Lemma picked_in_state r db state amount peer l :
  GetRandomNodeListByState r db state amount = Some (peer :: l) ->
  peer ∈ GetNodeListByState db state /\ data.State peer = state.
Proof.
  unfold GetRandomNodeListByState. intros H.
  assert (Hin : peer ∈ GetNodeListByState db state).
  { destruct (GetNodeListByState db state) as [|n ns] eqn:Hl; [discriminate|].
    remember (rotate _ (n :: ns)) as rot eqn:Hrot in H.
    injection H as H.
    assert (Hp : peer ∈ take amount rot) by (rewrite H; left).
    apply elem_of_take in Hp as (i & Hp & _).
    apply list_elem_of_lookup_2 in Hp. subst rot.
    by apply elem_of_rotate in Hp. }
  split; [exact Hin|].
  unfold GetNodeListByState in Hin.
  by apply list_elem_of_filter in Hin as [? _].
Qed.

Lemma transportOption_quiet logger m :
  let r := transportOption env logger m in
  setupConfig r.2 = setupConfig m /\ database r.2 = database m /\
  clockReadings (trace r.2) = clockReadings (trace m).
Proof.
  unfold transportOption. cbn.
  destruct (LoadClientTLSCredentials env _ _ _); cbn; done.
Qed.

(** strconv.ParseInt reads back what strconv.FormatInt writes. *)
Lemma ParseInt_FormatInt (z : Z) : ParseInt (FormatInt z) = Some z.
Proof.
  unfold ParseInt, FormatInt.
  rewrite NilZero.isi.
  - cbn. f_equal. apply DecimalZ.of_to.
  - destruct z; cbn; try discriminate.
    intros H. injection H as H. by apply DecimalPos.Unsigned.to_uint_nonnil in H.
  - destruct z; cbn; try discriminate.
    intros H. injection H as H. by apply DecimalPos.Unsigned.to_uint_nonnil in H.
Qed.

(** C7.  A run of Rtt that returns after five readings of the clock is a
    successful one: t0 before the dial, t1 when the connection is ready,
    t2 when the reply is in, then one reading per sample.  When
    t0 <= t1 <= t2, a span that a time.Duration holds, it writes two
    samples and nothing else, both from the local name to the name of the
    selected peer: one under the key RTT_TOTAL whose value is the decimal
    form of t2 - t0, stamped with the fourth reading, one under the key
    RTT_REQUEST whose value is the decimal form of t2 - t1, stamped with
    the fifth.  The request sample is in the store, and so is the total
    sample when the two ids differ; the number that the stored total value
    stands for is at least the one of the stored request value. *)
Theorem Rtt_stores_two_samples m m' t0 t1 t2 now1 now2 :
  Rtt env m = Returns tt m' ->
  clockReadings (trace m') =
    [now2; now1; t2; t1; t0] ++ clockReadings (trace m) ->
  ext t0 <= ext t1 -> ext t1 <= ext t2 ->
  ext t2 - ext t0 <= maxDuration ->
  exists peer,
    let from := config.Name (setupConfig m) in
    let to := data.Name peer in
    let idT := Hash env (from +:+ to +:+ FormatInt (RTT_TOTAL env)) in
    let idR := Hash env (from +:+ to +:+ FormatInt (RTT_REQUEST env)) in
    let total :=
      {| data.SId := idT; data.From := from; data.To := to;
         data.Key := RTT_TOTAL env;
         data.Value := FormatInt (ext t2 - ext t0);
         data.Ts := unixSec now1 |} in
    let request :=
      {| data.SId := idR; data.From := from; data.To := to;
         data.Key := RTT_REQUEST env;
         data.Value := FormatInt (ext t2 - ext t1);
         data.Ts := unixSec now2 |} in
    peer ∈ GetNodeListByState (database m) (NODE_OK env) /\
    nodes (database m') = nodes (database m) /\
    samples (database m') =
      <[idR := request]> (<[idT := total]> (samples (database m))) /\
    samples (database m') !! idR = Some request /\
    (idT ≠ idR -> samples (database m') !! idT = Some total) /\
    (forall id,
        id ≠ idT -> id ≠ idR ->
        samples (database m') !! id = samples (database m) !! id) /\
    (forall sT sR,
        samples (database m') !! idT = Some sT ->
        samples (database m') !! idR = Some sR ->
        idT ≠ idR ->
        data.Key sT = RTT_TOTAL env /\ data.Key sR = RTT_REQUEST env /\
        data.From sT = data.From sR /\ data.To sT = data.To sR /\
        exists vT vR,
          ParseInt (data.Value sT) = Some vT /\
          ParseInt (data.Value sR) = Some vR /\
          vT = ext t2 - ext t0 /\ vR = ext t2 - ext t1 /\ vT >= vR).
Proof.
  intros HJ Hclock H01 H12 H2.
  unfold Rtt in HJ.
  destruct (GetRandomNodeListByState _ _ _ _) as [[|peer rest]|] eqn:Hpick in HJ.
  1: discriminate.
  2: { injection HJ as <-. cbn [trace emit logw] in Hclock.
       rewrite !clockReadings_cons in Hclock.
       apply (f_equal length) in Hclock. cbn in Hclock. lia. }
  apply picked_in_state in Hpick as [Hin _]. cbn [database emit logw] in Hin.
  remember (if config.DebugGrpc _ then _ else _) as m1 eqn:Hm1 in HJ.
  assert (Hq1 : setupConfig m1 = setupConfig m /\ database m1 = database m /\
                clockReadings (trace m1) = clockReadings (trace m))
    by (subst m1; destruct (config.DebugGrpc _); done).
  clear Hm1. destruct Hq1 as (Hcfg1 & Hdb1 & Hclk1).
  destruct (transportOption_quiet "rtt" m1) as (Hcfg2 & Hdb2 & Hclk2).
  destruct (transportOption env "rtt" m1) as [cred m2].
  cbn [fst snd] in Hcfg2, Hdb2, Hclk2.
  unfold grpcDial, timeNow, callUnary, invoke in HJ.
  cbn -[SetSample Sub FormatInt] in HJ.
  destruct (Dial env _ _ _) in HJ; [discriminate|].
  destruct (UnaryReply env _ _ _) in HJ;
    injection HJ as <-;
    cbn [trace emit logw setDatabase] in Hclock;
    rewrite !clockReadings_cons, Hclk2, Hclk1 in Hclock.
  1: { apply (f_equal length) in Hclock. cbn in Hclock. lia. }
  cbn [app] in Hclock.
  injection Hclock as E5 E4 E3 E2 E1.
  exists peer. cbn zeta. cbn [database setDatabase emit logw].
  unfold rttSample, SetSample, GetSampleId, Unix.
  cbn [setupConfig setDatabase emit logw trace database samples nodes
       data.From data.To data.Key data.Value data.Ts].
  rewrite E1 in *. rewrite E2 in *. rewrite E3 in *.
  rewrite E4 in *. rewrite E5 in *.
  rewrite Hcfg2, Hcfg1, Hdb2, Hdb1.
  rewrite (Sub_in_range t2 t1), (Sub_in_range t2 t0) by lia.
  split; [exact Hin|]. split; [reflexivity|]. split; [reflexivity|].
  split; [apply lookup_insert_eq|].
  split.
  { intros Hne. rewrite lookup_insert_ne by congruence. apply lookup_insert_eq. }
  split.
  { intros id Hid1 Hid2.
    rewrite lookup_insert_ne by congruence.
    rewrite lookup_insert_ne by congruence. reflexivity. }
  intros sT sR HT HR Hne.
  rewrite lookup_insert_ne in HT by congruence.
  rewrite lookup_insert_eq in HT. rewrite lookup_insert_eq in HR.
  injection HT as <-. injection HR as <-.
  cbn [data.From data.To data.Key data.Value].
  repeat split.
  exists (ext t2 - ext t0), (ext t2 - ext t1).
  rewrite !ParseInt_FormatInt. repeat split; lia.
Qed.

(** ** More on the connection manager *)

(** X1.  A node whose id is cached gets the cached client back: initClient
    returns no error, whoever holds the lock, loads no credentials,
    reaches the network in no way, and leaves the cache, the store and the
    lock as they were. *)
Theorem initClient_reuses_cached_client m to c :
  clients m !! GetId env to = Some c ->
  exists m1,
    initClient env m to = Returns None m1 /\
    clients m1 = clients m /\
    database m1 = database m /\
    mu m1 = mu m /\
    exists Δ, after m Δ m1 /\ filter isNetwork Δ = [].
Proof.
  intros Hc. destruct (initClient_cached m to c Hc) as (m1 & Hi & Hcl & HΔ).
  destruct (initClient_frame m to _ _ Hi) as (_ & _ & Hdb & Hmu & _).
  exists m1. done.
Qed.

(** X2.  For an id that is not cached, an initClient that returns no error
    has dialled the target of the node once and has cached, under the id,
    a client on that connection, with the timeout interceptor installed;
    the other entries of the cache are as they were, and the lock, taken
    for the write, is free again. *)
Theorem initClient_caches_new_client m to m1 :
  clients m !! GetId env to = None ->
  initClient env m to = Returns None m1 ->
  exists cred,
    clients m1 =
      <[GetId env to :=
          {| conn := {| connTarget := meshv1.Target to;
                        connOpts := [WithTransportCredentials cred;
                                     WithUnaryInterceptor] |};
             client := {| connTarget := meshv1.Target to;
                          connOpts := [WithTransportCredentials cred;
                                       WithUnaryInterceptor] |} |}]>
        (clients m) /\
    (forall id, id ≠ GetId env to -> clients m1 !! id = clients m !! id) /\
    mu m = false /\ mu m1 = false /\
    exists Δ, after m Δ m1 /\
      filter isNetwork Δ =
        [EvDial (meshv1.Target to)
           [WithTransportCredentials cred; WithUnaryInterceptor]].
Proof.
  intros Hc Hi. destruct (initClient_uncached m to Hc) as (cred & H).
  destruct (initClient_frame m to _ _ Hi) as (_ & _ & _ & Hmu & _).
  rewrite Hi in H. destruct H as (Hcl & Hfree & _ & HΔ).
  exists cred. split; [exact Hcl|].
  split; [intros id Hid; rewrite Hcl; by rewrite lookup_insert_ne|].
  specialize (Hfree eq_refl). split; [exact Hfree|].
  split; [congruence|exact HΔ].
Qed.

Lemma filter_isDial_isNetwork (Δ : list Event) :
  filter isDial Δ = filter isDial (filter isNetwork Δ).
Proof.
  rewrite list_filter_filter. apply list_filter_iff.
  intros []; cbn; tauto.
Qed.

(** X3.  An initClient that returns an error was asked for an id that is
    not cached, has dialled once, and leaves the cache as it was: a failed
    dial caches nothing. *)
Theorem initClient_error_caches_nothing m to e m1 :
  initClient env m to = Returns (Some e) m1 ->
  clients m !! GetId env to = None /\
  clients m1 = clients m /\
  exists Δ, after m Δ m1 /\
    length (filter isNetwork Δ) = 1%nat /\
    length (filter isDial Δ) = 1%nat.
Proof.
  intros Hi.
  destruct (clients m !! GetId env to) as [c|] eqn:Hc.
  - destruct (initClient_cached m to c Hc) as (m2 & Hi' & _). congruence.
  - destruct (initClient_uncached m to Hc) as (cred & H).
    rewrite Hi in H. destruct H as (Hcl & _ & _ & Δ & HΔ & Hnet).
    split; [reflexivity|]. split; [exact Hcl|].
    exists Δ. split; [exact HΔ|]. split; [by rewrite Hnet|].
    rewrite filter_isDial_isNetwork, Hnet. reflexivity.
Qed.

(** X4.  The cache is keyed by the id alone.  Once initClient has returned
    no error for a node, initClient for any node of the same id, be it
    another name or another target, returns no error without reaching the
    network and leaves the cache as it is. *)
Theorem initClient_same_id_reuses m to to' m1 :
  GetId env to' = GetId env to ->
  initClient env m to = Returns None m1 ->
  exists m2,
    initClient env m1 to' = Returns None m2 /\
    clients m2 = clients m1 /\
    exists Δ, after m1 Δ m2 /\ filter isNetwork Δ = [].
Proof.
  intros Hid Hi.
  destruct (initClient_frame m to _ _ Hi) as (_ & _ & _ & _ & Hcl & _).
  destruct (Hcl eq_refl) as [c Hc]. rewrite <- Hid in Hc.
  exact (initClient_cached m1 to' c Hc).
Qed.

(** X5.  When the credentials cannot be loaded, initClient does not fail
    for it: for an id that is not cached it dials all the same, with
    insecure transport credentials, and what it returns is the answer of
    that dial; it does not return only when the dial succeeds while the
    lock is held. *)
Theorem initClient_insecure_fallback m to :
  (forall h, exists e,
     LoadClientTLSCredentials env h (config.CaCertPath (setupConfig m))
       (config.CaCert (setupConfig m)) = inl e) ->
  clients m !! GetId env to = None ->
  let opts :=
    [WithTransportCredentials InsecureCredentials; WithUnaryInterceptor] in
  match initClient env m to with
  | Returns err m1 =>
      err = Dial env (sinceDial (trace m1)) (meshv1.Target to) opts /\
      exists Δ, after m Δ m1 /\
        filter isNetwork Δ = [EvDial (meshv1.Target to) opts]
  | Panics => False
  | Blocks m1 =>
      mu m = true /\
      Dial env (sinceDial (trace m1)) (meshv1.Target to) opts = None /\
      exists Δ, after m Δ m1 /\
        filter isNetwork Δ = [EvDial (meshv1.Target to) opts]
  end.
Proof.
  intros Hload Hc.
  unfold initClient, transportOption, grpcDial, Lock, Unlock, after. cbn.
  destruct (config.DebugGrpc (setupConfig m)); cbn; rewrite Hc; cbn;
    (match goal with
     | |- context [LoadClientTLSCredentials env ?h ?p ?c] =>
         destruct (Hload h) as [e He]; rewrite He
     end); cbn;
    (match goal with
     | |- context [Dial env ?h ?t ?o] => destruct (Dial env h t o) eqn:Hd
     end); cbn; [ | destruct (mu m) eqn:Hmu; cbn | | destruct (mu m) eqn:Hmu; cbn ];
    (repeat split; [try done; symmetry; exact Hd..|]); delta; reflexivity.
Qed.

Lemma stable_refl m : stable m m.
Proof. unfold stable, keepsClients. done. Qed.

Lemma stable_trans m1 m2 m3 : stable m1 m2 -> stable m2 m3 -> stable m1 m3.
Proof.
  unfold stable, keepsClients.
  intros (Hc1 & Hr1 & Hm1 & Hk1 & Hs1 & Hp1) (Hc2 & Hr2 & Hm2 & Hk2 & Hs2 & Hp2).
  split; [congruence|]. split; [congruence|]. split; [congruence|].
  split; [intros id c Hl; apply Hk2, Hk1, Hl|].
  split; [congruence|]. intros Hp. apply Hp2, Hp1, Hp.
Qed.

Lemma stable_emit m m' e : stable m m' -> stable m (emit e m').
Proof. exact id. Qed.

Lemma pooled_insert m to cred :
  pooled m ->
  forall id c,
    <[GetId env to := pooledClient to cred]> (clients m) !! id = Some c ->
    client c = conn c /\ WithUnaryInterceptor ∈ connOpts (conn c).
Proof.
  intros Hp id c. rewrite lookup_insert. case_decide.
  - intros [= <-]. cbn. split; [reflexivity|].
    apply elem_of_cons. right. apply elem_of_cons. by left.
  - apply Hp.
Qed.

(** However initClient ends, it leaves a state that is stable with
    respect to the one it started in. *)
Lemma initClient_stable m to :
  match initClient env m to with
  | Returns _ m1 | Blocks m1 => stable m m1
  | Panics => False
  end.
Proof.
  unfold stable, keepsClients.
  initClient_paths m to; split_and!; try done;
    try (intros id c Hl; rewrite lookup_insert_ne; [exact Hl|congruence]);
    intros Hp; unfold pooled; cbn; exact (pooled_insert m to _ Hp).
Qed.

(** X6.  initClient keeps the cache well formed: when every cached client
    has its stub on its own connection and carries the timeout
    interceptor, so it is in the state that initClient leaves, whether it
    returns or waits for the lock, and no cached client is dropped or
    replaced. *)
Theorem initClient_keeps_pooled m to :
  pooled m ->
  match initClient env m to with
  | Returns _ m1 | Blocks m1 => pooled m1 /\ keepsClients m m1
  | Panics => False
  end.
Proof.
  intros Hp. pose proof (initClient_stable m to) as H.
  destruct (initClient env m to) as [err m1| |m1]; [|done|];
    destruct H as (_ & _ & _ & Hk & _ & Hp'); (split; [exact (Hp' Hp)|exact Hk]).
Qed.

(** ** Calls through a pooled client *)

(** After an initClient without error the client of the node is cached,
    and a call through it runs under the request timeout. *)
Lemma pooled_call m node m1 :
  pooled m ->
  initClient env m node = Returns None m1 ->
  exists c,
    clients m1 !! GetId env node = Some c /\
    forall req,
      invoke m1 (client c) req =
      emit (EvInvoke (client c) req
              (Some (config.RequestTimeout (routineConfig m)))) m1.
Proof.
  intros Hp Hi.
  destruct (initClient_frame m node _ _ Hi) as (_ & Hrc & _ & _ & Hcl & _).
  pose proof (initClient_stable m node) as Hst. rewrite Hi in Hst.
  destruct Hst as (_ & _ & _ & _ & _ & Hp'). specialize (Hp' Hp).
  destruct (Hcl eq_refl) as [c Hc]. exists c. split; [exact Hc|].
  intros req. unfold invoke, timeoutInterceptor.
  destruct (Hp' _ _ Hc) as [Hst Hin]. rewrite <- Hst in Hin.
  rewrite bool_decide_eq_true_2 by exact Hin. rewrite Hrc. reflexivity.
Qed.

(** X7.  ping is a probe and nothing more.  On a well-formed cache it
    never panics, and it returns whenever the lock is free on entry; it
    waits only for a lock that is held, when a client it has dialled is to
    be cached.  When it returns it has left the store as it was and has
    observed nothing; when the client could not be obtained it returns that
    error without a call; otherwise it has made exactly one Ping call,
    through the cached client, carrying the configured name as name and
    the configured join address as target, under the request timeout. *)
Theorem ping_is_a_probe m node :
  pooled m ->
  match ping env m node with
  | Returns err m' =>
      database m' = database m /\
      exists Δ, after m Δ m' /\
        filter isObservation Δ = [] /\
        match initClient env m node with
        | Returns (Some e) _ => err = Some e /\ filter isInvoke Δ = []
        | Returns None _ =>
            exists c,
              clients m' !! GetId env node = Some c /\
              filter isInvoke Δ =
                [EvInvoke (client c)
                   (ReqPing
                      {| meshv1.Name := config.Name (setupConfig m);
                         meshv1.Target :=
                           config.JoinAddress (setupConfig m) |})
                   (Some (config.RequestTimeout (routineConfig m)))]
        | _ => False
        end
  | Panics => False
  | Blocks _ => mu m = true /\ clients m !! GetId env node = None
  end /\
  (mu m = false -> exists err m', ping env m node = Returns err m').
Proof.
  intros Hp. unfold ping.
  pose proof (pooled_call m node) as Hcall.
  pose proof (initClient_ends m node) as Hends.
  pose proof (initClient_frame m node) as Hframe.
  destruct (initClient env m node) as [[e|] m1| |m1]; [| |done|].
  - destruct (Hframe _ _ eq_refl)
      as (_ & _ & Hdb & _ & _ & Δ & HΔ & _ & Hinv & _ & Hobs & _).
    split; [|eauto]. split; [exact Hdb|].
    eexists (_ :: Δ). split; [chain HΔ|].
    rewrite !filter_bool_cons, Hinv, Hobs. cbn. done.
  - destruct (Hframe _ _ eq_refl)
      as (Hcfg & _ & Hdb & _ & _ & Δ & HΔ & _ & Hinv & _ & Hobs & _).
    destruct (Hcall _ Hp eq_refl) as (c & Hc & Hinvoke). rewrite Hc.
    unfold callUnary. rewrite Hinvoke. unfold self. cbn. rewrite Hcfg.
    destruct (UnaryReply env _ _ _) as [e|]; (split; [|eauto]);
      (split; [exact Hdb|]).
    + eexists (_ :: _ :: Δ). split; [chain HΔ|].
      rewrite !filter_bool_cons, Hinv, Hobs. cbn.
      split; [reflexivity|]. exists c. done.
    + eexists (_ :: Δ). split; [chain HΔ|].
      rewrite !filter_bool_cons, Hinv, Hobs. cbn.
      split; [reflexivity|]. exists c. done.
  - split; [exact Hends|]. destruct Hends as [Hmu _]. congruence.
Qed.

(** X8.  When NodeDiscovery obtains the client it makes exactly one
    NodeDiscovery call, through the cached client and under the request
    timeout; the call carries the new node as given and announces the
    local node under its listen address and port, not its join address. *)
Theorem NodeDiscovery_announces_listen_address m toNode newNode m1 :
  pooled m ->
  initClient env m toNode = Returns None m1 ->
  exists m' c,
    NodeDiscovery env m toNode newNode = Returns tt m' /\
    clients m' !! GetId env toNode = Some c /\
    exists Δ, after m Δ m' /\
      filter isInvoke Δ =
        [EvInvoke (client c)
           (ReqNodeDiscovery
              {| meshv1.NewNode := newNode;
                 meshv1.IAmNode :=
                   {| meshv1.Name := config.Name (setupConfig m);
                      meshv1.Target :=
                        config.ListenAddress (setupConfig m) +:+ ":" +:+
                        FormatInt (config.ListenPort (setupConfig m)) |} |})
           (Some (config.RequestTimeout (routineConfig m)))].
Proof.
  intros Hp Hi. unfold NodeDiscovery.
  destruct (pooled_call m toNode _ Hp Hi) as (c & Hc & Hinvoke).
  destruct (initClient_frame m toNode _ _ Hi)
    as (Hcfg & _ & _ & _ & _ & Δ & HΔ & _ & Hinv & _).
  rewrite Hi, Hc. unfold callUnary. rewrite Hinvoke.
  unfold discoveryRequest. cbn. rewrite Hcfg.
  destruct (UnaryReply env _ _ _) as [e|];
    (eexists _, c; split; [reflexivity|]; split; [exact Hc|]).
  - eexists (_ :: _ :: Δ). split; [chain HΔ|].
    rewrite !filter_bool_cons, Hinv. reflexivity.
  - eexists (_ :: Δ). split; [chain HΔ|].
    rewrite !filter_bool_cons, Hinv. reflexivity.
Qed.

(** X9.  With samples in the store and the client obtained, pushSamples
    makes exactly one PushSamples call, through the cached client and under
    the request timeout.  The call carries one wire sample per sample of
    the store, in the order of the store's list, with the same from, to,
    key, value and timestamp, and no other: a wire sample is in the payload
    exactly when the store holds a sample with these five fields.  The
    store is left as it was. *)
Theorem pushSamples_sends_whole_list m node m1 :
  pooled m ->
  GetSampleList (database m) ≠ [] ->
  initClient env m node = Returns None m1 ->
  exists err m' c payload,
    pushSamples env m node = Returns err m' /\
    database m' = database m /\
    clients m' !! GetId env node = Some c /\
    (exists Δ, after m Δ m' /\
       filter isInvoke Δ =
         [EvInvoke (client c)
            (ReqPushSamples {| meshv1.Samples_ := payload |})
            (Some (config.RequestTimeout (routineConfig m)))]) /\
    payload =
      map (fun s =>
             {| meshv1.From := data.From s; meshv1.To := data.To s;
                meshv1.Key := data.Key s; meshv1.Value := data.Value s;
                meshv1.Ts := data.Ts s |})
        (GetSampleList (database m)) /\
    length payload = length (GetSampleList (database m)) /\
    (forall w,
        w ∈ payload <->
        exists id s,
          samples (database m) !! id = Some s /\
          meshv1.From w = data.From s /\ meshv1.To w = data.To s /\
          meshv1.Key w = data.Key s /\ meshv1.Value w = data.Value s /\
          meshv1.Ts w = data.Ts s).
Proof.
  intros Hp Hne Hi. unfold pushSamples.
  destruct (pooled_call m node _ Hp Hi) as (c & Hc & Hinvoke).
  destruct (initClient_frame m node _ _ Hi)
    as (_ & _ & Hdb & _ & _ & Δ & HΔ & _ & Hinv & _).
  rewrite Hi, Hdb.
  rewrite bool_decide_eq_false_2
    by (intros Hlen; apply Hne; by apply length_zero_iff_nil).
  rewrite Hc. unfold callUnary. rewrite Hinvoke. cbn.
  assert (Hpay : forall w,
    w ∈ map wireSample (GetSampleList (database m)) <->
    exists id s,
      samples (database m) !! id = Some s /\
      meshv1.From w = data.From s /\ meshv1.To w = data.To s /\
      meshv1.Key w = data.Key s /\ meshv1.Value w = data.Value s /\
      meshv1.Ts w = data.Ts s).
  { intros w. unfold GetSampleList. split.
    - intros Hin. apply list_elem_of_fmap in Hin as (s & -> & Hin).
      apply list_elem_of_fmap in Hin as ([id s'] & -> & Hin).
      apply elem_of_map_to_list in Hin. exists id, s'. done.
    - intros (id & s & Hl & H1 & H2 & H3 & H4 & H5).
      apply list_elem_of_fmap. exists s. split.
      + destruct w. cbn in *. subst. reflexivity.
      + apply list_elem_of_fmap. exists (id, s). split; [reflexivity|].
        by apply elem_of_map_to_list. }
  destruct (UnaryReply env _ _ _) as [e|];
    (eexists _, _, c, _; split; [reflexivity|]; split; [exact Hdb|];
     split; [exact Hc|]).
  - split.
    { eexists (_ :: _ :: Δ). split; [chain HΔ|].
      rewrite !filter_bool_cons, Hinv. reflexivity. }
    split; [reflexivity|]. split; [apply length_map|exact Hpay].
  - split.
    { eexists (_ :: Δ). split; [chain HΔ|].
      rewrite !filter_bool_cons, Hinv. reflexivity. }
    split; [reflexivity|]. split; [apply length_map|exact Hpay].
Qed.

(** ** More on closeClient *)

Lemma closeClient_nil_inv m to m' :
  closeClient env m to = Returns None m' ->
  exists c,
    mu m = false /\
    clients m !! GetId env to = Some c /\
    m' = setClients (delete (GetId env to) (clients m)) (emit (EvClose (conn c)) m).
Proof.
  unfold closeClient, Lock, Unlock. intros H.
  destruct (mu m) eqn:Hmu; [discriminate|]. cbn in H.
  destruct (clients m !! GetId env to) as [c|] eqn:Hc; [|discriminate].
  exists c. split; [reflexivity|]. split; [reflexivity|].
  destruct (CloseReply env _ _); [discriminate|]. injection H as <-.
  destruct m. cbn in *. subst. reflexivity.
Qed.

(** X10.  A closeClient that returns no error has taken the lock, has
    closed the connection of the cached entry, once, has evicted the
    entry, and has released the lock; the other entries of the cache and
    the store are as they were. *)
Theorem closeClient_evicts m to m' :
  closeClient env m to = Returns None m' ->
  exists c,
    clients m !! GetId env to = Some c /\
    clients m' = delete (GetId env to) (clients m) /\
    clients m' !! GetId env to = None /\
    (forall id, id ≠ GetId env to -> clients m' !! id = clients m !! id) /\
    database m' = database m /\
    mu m = false /\ mu m' = false /\
    trace m' = EvClose (conn c) :: trace m.
Proof.
  intros H. apply closeClient_nil_inv in H as (c & Hmu & Hc & ->).
  exists c. split; [exact Hc|]. cbn.
  split; [reflexivity|]. split; [apply lookup_delete_eq|].
  split; [|done]. intros id Hid. by apply lookup_delete_ne.
Qed.

(** X11.  A closeClient that returns an error has tried to close the
    connection and has evicted nothing: the entry is still cached, on the
    connection whose Close failed.  It has returned before the unlock:
    the lock that it took is still held, and every later closeClient waits
    for it. *)
Theorem closeClient_error_keeps_entry m to e m' :
  closeClient env m to = Returns (Some e) m' ->
  exists c,
    clients m !! GetId env to = Some c /\
    clients m' = clients m /\
    trace m' = EvClose (conn c) :: trace m /\
    mu m = false /\ mu m' = true /\
    forall to', closeClient env m' to' = Blocks m'.
Proof.
  unfold closeClient at 1, Lock. intros H.
  destruct (mu m) eqn:Hmu; [discriminate|]. cbn in H.
  destruct (clients m !! GetId env to) as [c|] eqn:Hc; [|discriminate].
  exists c. split; [reflexivity|].
  destruct (CloseReply env _ _); [|discriminate]. injection H as _ <-.
  repeat split.
Qed.

(** X12.  Closing twice panics: after a closeClient that returned no
    error, closeClient for the same node, or for any node of the same id,
    dereferences the evicted entry. *)
Theorem closeClient_twice_panics m to to' m' :
  GetId env to' = GetId env to ->
  closeClient env m to = Returns None m' ->
  closeClient env m' to' = Panics.
Proof.
  intros Hid H. apply closeClient_nil_inv in H as (c & Hmu & _ & ->).
  unfold closeClient, Lock. cbn. rewrite Hmu. cbn.
  rewrite Hid, lookup_delete_eq. reflexivity.
Qed.

(** X13.  A closed client is not reused: after a closeClient that returned
    no error, initClient for the same node returns after dialling again. *)
Theorem closeClient_then_initClient_redials m to m' :
  closeClient env m to = Returns None m' ->
  exists cred err m2 Δ,
    initClient env m' to = Returns err m2 /\
    after m' Δ m2 /\
    filter isNetwork Δ =
      [EvDial (meshv1.Target to)
         [WithTransportCredentials cred; WithUnaryInterceptor]].
Proof.
  intros H. apply closeClient_nil_inv in H as (c & Hmu & _ & Hm').
  assert (Hgone : clients m' !! GetId env to = None)
    by (rewrite Hm'; apply lookup_delete_eq).
  assert (Hfree : mu m' = false) by (rewrite Hm'; exact Hmu).
  destruct (initClient_uncached m' to Hgone) as (cred & Hu).
  destruct (initClient_free m' to Hfree) as (err & m2 & Hi).
  rewrite Hi in Hu. destruct Hu as (_ & _ & _ & Δ & HΔ & Hnet).
  exists cred, err, m2, Δ. done.
Qed.

(** ** More on Rtt *)

Lemma transportOption_frame logger m :
  setupConfig (transportOption env logger m).2 = setupConfig m /\
  clients (transportOption env logger m).2 = clients m /\
  database (transportOption env logger m).2 = database m /\
  (exists cred,
     (transportOption env logger m).1 = WithTransportCredentials cred) /\
  exists Δ, after m Δ (transportOption env logger m).2 /\
    filter isNetwork Δ = [] /\ filter isObservation Δ = [] /\
    clockReadings Δ = [].
Proof.
  unfold transportOption, after. cbn.
  destruct (LoadClientTLSCredentials env _ _ _); cbn;
    (repeat split; [eexists; reflexivity|]); delta; done.
Qed.

Lemma rttConn_no_interceptor cred :
  bool_decide (WithUnaryInterceptor ∈ [WithTransportCredentials cred; WithBlock])
  = false.
Proof.
  apply bool_decide_eq_false_2. intros H.
  repeat (apply elem_of_cons in H as [H|H]; [discriminate|]).
  by apply elem_of_nil in H.
Qed.

(** The three ways in which Rtt returns: without a node, after a failed
    call, after a measurement. *)
Lemma Rtt_cases m m' :
  Rtt env m = Returns tt m' ->
  setupConfig m' = setupConfig m /\
  clients m' = clients m /\
  nodes (database m') = nodes (database m) /\
  exists Δ, after m Δ m' /\
    ((filter isNetwork Δ = [] /\ filter isObservation Δ = [] /\
      database m' = database m) \/
     exists peer cred,
       peer ∈ GetNodeListByState (database m) (NODE_OK env) /\
       filter isNetwork Δ =
         [EvClose (rttConn peer cred);
          EvInvoke (rttConn peer cred) ReqRtt None;
          EvDial (data.Target peer) (connOpts (rttConn peer cred))] /\
       ((filter isObservation Δ = [] /\ database m' = database m) \/
        exists t0 t1 t2 now1 now2,
          clockReadings Δ = [now2; now1; t2; t1; t0] /\
          filter isObservation Δ =
            [EvObserve (SampleName env (RTT_REQUEST env)) (data.Name peer)
               (Sub t2 t1);
             EvObserve (SampleName env (RTT_TOTAL env)) (data.Name peer)
               (Sub t2 t0)] /\
          database m' =
            SetSample env
              (rttSample m peer (RTT_REQUEST env) (Sub t2 t1) now2)
              (SetSample env
                 (rttSample m peer (RTT_TOTAL env) (Sub t2 t0) now1)
                 (database m)))).
Proof.
  intros HJ. unfold Rtt in HJ.
  destruct (GetRandomNodeListByState _ _ _ _) as [[|peer rest]|] eqn:Hpick in HJ.
  1: discriminate.
  2: { injection HJ as <-. cbn. repeat split.
       eexists [_; _; _]. split; [reflexivity|]. left. done. }
  apply picked_in_state in Hpick as [Hin _]. cbn [database emit logw] in Hin.
  remember (if config.DebugGrpc _ then _ else _) as m1 eqn:Hm1 in HJ.
  assert (Hq1 : setupConfig m1 = setupConfig m /\ clients m1 = clients m /\
                database m1 = database m /\
                exists Δ1, after m Δ1 m1 /\ filter isNetwork Δ1 = [] /\
                  filter isObservation Δ1 = [] /\ clockReadings Δ1 = []).
  { subst m1. destruct (config.DebugGrpc _); cbn; repeat split;
      [eexists [_; _; _; _] | eexists [_; _; _]]; done. }
  clear Hm1. destruct Hq1 as (Hcfg1 & Hcl1 & Hdb1 & Δ1 & HΔ1 & Hn1 & Ho1 & Hk1).
  destruct (transportOption_frame "rtt" m1)
    as (Hcfg2 & Hcl2 & Hdb2 & [cred Hcred] & Δ2 & HΔ2 & Hn2 & Ho2 & Hk2).
  destruct (transportOption env "rtt" m1) as [o m2].
  cbn [fst snd] in Hcfg2, Hcl2, Hdb2, Hcred, HΔ2. subst o.
  pose proof (after_trans _ _ _ _ _ HΔ1 HΔ2) as HΔ.
  unfold grpcDial, timeNow, callUnary, invoke in HJ.
  cbn -[SetSample Sub FormatInt] in HJ.
  rewrite !rttConn_no_interceptor in HJ.
  destruct (Dial env _ _ _) in HJ; [discriminate|].
  destruct (UnaryReply env _ _ _) in HJ; injection HJ as <-;
    cbn -[SetSample Sub FormatInt];
    (split; [congruence|]); (split; [congruence|]);
    (split; [rewrite ?Hdb2, ?Hdb1; reflexivity|]).
  - eexists (_ :: _ :: _ :: _ :: _ :: _ :: _ :: Δ2 ++ Δ1).
    split; [chain HΔ|]. right. exists peer, cred.
    split; [exact Hin|].
    rewrite !filter_bool_cons, !filter_app, Hn1, Hn2, Ho1, Ho2.
    split; [reflexivity|]. left. split; [reflexivity|]. congruence.
  - eexists (_ :: _ :: _ :: _ :: _ :: _ :: _ :: _ :: _ :: _ :: _ :: Δ2 ++ Δ1).
    split; [chain HΔ|]. right. exists peer, cred.
    split; [exact Hin|].
    rewrite !filter_bool_cons, !filter_app, Hn1, Hn2, Ho1, Ho2.
    split; [reflexivity|]. right.
    eexists _, _, _, _, _.
    split.
    { rewrite !clockReadings_cons. unfold clockReadings in *.
      rewrite omap_app, Hk1, Hk2. reflexivity. }
    split; [reflexivity|].
    unfold rttSample. cbn [setupConfig setDatabase emit logw trace database].
    rewrite Hcfg2, Hcfg1, Hdb2, Hdb1. reflexivity.
Qed.

(** X14.  Rtt goes around the connection manager: however it returns, the
    cache of clients, the configuration and the nodes of the store are as
    they were. *)
Theorem Rtt_bypasses_cache m m' :
  Rtt env m = Returns tt m' ->
  clients m' = clients m /\
  setupConfig m' = setupConfig m /\
  nodes (database m') = nodes (database m).
Proof.
  intros H. apply Rtt_cases in H as (Hcfg & Hcl & Hn & _). done.
Qed.

(** X15.  A run of Rtt that returns either reaches the network in no way,
    or dials a node of the store that is in state OK, blocking and without
    the timeout interceptor, makes one Rtt call on that connection under no
    timeout, and closes that connection, in this order and nothing else. *)
Theorem Rtt_closes_what_it_dials m m' :
  Rtt env m = Returns tt m' ->
  exists Δ, after m Δ m' /\
    (filter isNetwork Δ = [] \/
     exists peer cred,
       peer ∈ GetNodeListByState (database m) (NODE_OK env) /\
       filter isNetwork Δ =
         [EvClose (rttConn peer cred);
          EvInvoke (rttConn peer cred) ReqRtt None;
          EvDial (data.Target peer)
            [WithTransportCredentials cred; WithBlock]]).
Proof.
  intros H. apply Rtt_cases in H as (_ & _ & _ & Δ & HΔ & H).
  exists Δ. split; [exact HΔ|].
  destruct H as [(Hn & _)|(peer & cred & Hin & Hn & _)]; [by left|].
  right. exists peer, cred. done.
Qed.

(** X16.  Rtt writes no partial result.  A run that returns either
    observes nothing and leaves the store as it was, or observes the two
    durations of one peer, a node of the store in state OK, and writes
    the two samples of that peer and nothing else: both from the local name
    to the name of the peer, the total under the key RTT_TOTAL and the
    request under RTT_REQUEST, and the value of each is the decimal form
    of the very duration observed under the metric of its key, which
    strconv.ParseInt reads back as that duration. *)
Theorem Rtt_no_partial_samples m m' :
  Rtt env m = Returns tt m' ->
  exists Δ, after m Δ m' /\
    ((filter isObservation Δ = [] /\ database m' = database m) \/
     exists peer total request now1 now2,
       let from := config.Name (setupConfig m) in
       let to := data.Name peer in
       let idT := Hash env (from +:+ to +:+ FormatInt (RTT_TOTAL env)) in
       let idR := Hash env (from +:+ to +:+ FormatInt (RTT_REQUEST env)) in
       let sT :=
         {| data.SId := idT; data.From := from; data.To := to;
            data.Key := RTT_TOTAL env; data.Value := FormatInt total;
            data.Ts := unixSec now1 |} in
       let sR :=
         {| data.SId := idR; data.From := from; data.To := to;
            data.Key := RTT_REQUEST env; data.Value := FormatInt request;
            data.Ts := unixSec now2 |} in
       peer ∈ GetNodeListByState (database m) (NODE_OK env) /\
       filter isObservation Δ =
         [EvObserve (SampleName env (RTT_REQUEST env)) (data.Name peer) request;
          EvObserve (SampleName env (RTT_TOTAL env)) (data.Name peer) total] /\
       nodes (database m') = nodes (database m) /\
       samples (database m') =
         <[idR := sR]> (<[idT := sT]> (samples (database m))) /\
       samples (database m') !! idR = Some sR /\
       (idT ≠ idR -> samples (database m') !! idT = Some sT) /\
       ParseInt (data.Value sT) = Some total /\
       ParseInt (data.Value sR) = Some request).
Proof.
  intros H. apply Rtt_cases in H as (_ & _ & Hnodes & Δ & HΔ & H).
  exists Δ. split; [exact HΔ|].
  destruct H as [(_ & Ho & Hdb)|(peer & cred & Hin & _ & H)]; [by left|].
  destruct H as [(Ho & Hdb)|(t0 & t1 & t2 & n1 & n2 & _ & Ho & Hdb)];
    [by left|].
  right. exists peer, (Sub t2 t0), (Sub t2 t1), n1, n2. cbn zeta.
  split; [exact Hin|]. split; [exact Ho|]. split; [exact Hnodes|].
  rewrite Hdb. unfold SetSample, rttSample, GetSampleId, Unix.
  cbn [samples data.From data.To data.Key data.Value data.Ts].
  split; [reflexivity|]. split; [apply lookup_insert_eq|].
  split.
  { intros Hne. rewrite lookup_insert_ne by congruence. apply lookup_insert_eq. }
  split; apply ParseInt_FormatInt.
Qed.

(** ** More on Join *)

Lemma quietRun_emit n m m' e :
  isNetwork e = false -> isObservation e = false ->
  quietRun n m m' -> quietRun n m (emit e m').
Proof.
  intros Hn Ho (Hst & Δ & HΔ & Hd & Hi & Hc & Hob).
  split; [exact Hst|]. exists (e :: Δ). split; [chain HΔ|].
  rewrite !filter_bool_cons.
  destruct e; try discriminate; cbn; done.
Qed.

Lemma quietRun_SetNode n m m' node :
  quietRun n m m' ->
  quietRun n m (setDatabase (SetNode env node (database m')) m').
Proof. exact id. Qed.

Lemma quietRun_trans n1 n2 m1 m2 m3 :
  quietRun n1 m1 m2 -> quietRun n2 m2 m3 -> quietRun (n1 + n2) m1 m3.
Proof.
  intros (Hst1 & Δ1 & HΔ1 & Hd1 & Hi1 & Hc1 & Ho1)
         (Hst2 & Δ2 & HΔ2 & Hd2 & Hi2 & Hc2 & Ho2).
  split; [eapply stable_trans; eassumption|].
  exists (Δ2 ++ Δ1). split; [eapply after_trans; eassumption|].
  rewrite !filter_app, !length_app, Hc1, Hc2, Ho1, Ho2.
  repeat split; lia.
Qed.

(** One pass through the loop body that does not wait for the lock dials
    at most once, calls at most once, closes and observes nothing, and
    keeps the cache. *)
Lemma JoinBody_quiet targets index target res m :
  match JoinBody env targets index target res m with
  | Continue _ m' | Break _ m' | Return _ m' => quietRun 1 m m'
  | _ => True
  end.
Proof.
  unfold JoinBody.
  set (m0 := logw _ _ _ _ m).
  set (node := {| meshv1.Name := EmptyString; meshv1.Target := target |}).
  pose proof (initClient_frame m0 node) as Hframe.
  pose proof (initClient_stable m0 node) as Hst0.
  destruct (initClient env m0 node) as [err m1| |m1]; [|done|done].
  destruct (Hframe _ _ eq_refl)
    as (_ & _ & _ & _ & _ & Δ0 & HΔ0 & _ & Hi0 & _ & Ho0 & Hc0 & _ & Hd0 & _).
  assert (Hst : stable m m1)
    by (eapply stable_trans; [apply stable_emit, stable_refl|exact Hst0]).
  assert (H0 : exists Δ, after m Δ m1 /\
                 (length (filter isDial Δ) <= 1)%nat /\
                 filter isInvoke Δ = [] /\
                 filter isClose Δ = [] /\ filter isObservation Δ = []).
  { eexists (Δ0 ++ [_]).
    split; [eapply after_trans; [apply after_emit, after_refl|exact HΔ0]|].
    rewrite !filter_app, !filter_bool_cons, Hi0, Ho0, Hc0.
    remember (filter isDial Δ0) as dials in *. cbn. rewrite ?app_nil_r.
    repeat split; first [lia | done]. }
  destruct H0 as (Δ & HΔ & Hd & Hi & Hc & Ho).
  assert (H1 : quietRun 1 m m1).
  { split; [exact Hst|]. exists Δ. rewrite Hi, Hc, Ho. cbn.
    repeat split; first [lia | done]. }
  destruct err as [e|].
  - case_bool_decide; [apply quietRun_emit; [done..|]|];
      (apply quietRun_emit; [done..|]); exact H1.
  - destruct (clients m1 !! GetId env node) as [c|]; [|done].
    assert (H2 : quietRun 1 m (invoke m1 (client c) (ReqJoinMesh (self m1)))).
    { split; [exact Hst|]. eexists (_ :: Δ). split; [chain HΔ|].
      rewrite !filter_bool_cons, Hi, Hc, Ho. cbn. repeat split; lia. }
    unfold callJoinMesh. cbn.
    destruct (JoinMeshReply env _ _ _) as [e|r].
    + case_bool_decide; [apply quietRun_emit; [done..|]|];
        (apply quietRun_emit; [done..|]); exact H2.
    + destruct (meshv1.NameUnique r); cbn.
      * apply quietRun_emit; [done..|].
        exact (quietRun_SetNode _ _ _ _ H2).
      * apply quietRun_emit; [done..|]. exact H2.
Qed.

Lemma quietRun_mono n n' m m' :
  (n <= n')%nat -> quietRun n m m' -> quietRun n' m m'.
Proof.
  intros Hn (Hst & Δ & HΔ & Hd & Hi & Hc & Ho).
  split; [exact Hst|]. exists Δ. repeat split; first [done | lia].
Qed.

Lemma quietRun_refl m : quietRun 0 m m.
Proof. split; [apply stable_refl|]. exists []. done. Qed.

Lemma JoinLoop_quiet targets rest :
  forall index res m,
    match JoinLoop env targets index rest res m with
    | Fallthrough _ m' | Returned _ m' => quietRun (length rest) m m'
    | _ => True
    end.
Proof.
  induction rest as [|target rest' IH]; intros index res m; cbn [JoinLoop length].
  - apply quietRun_refl.
  - pose proof (JoinBody_quiet targets index target res m) as Hb.
    destruct (JoinBody env targets index target res m) as [res' m1|res' m1|r m1| |m1];
      [ | | | done | done ].
    + specialize (IH (index + 1) res' m1).
      destruct (JoinLoop env targets (index + 1) rest' res' m1); [ | | done | done];
        exact (quietRun_trans 1 _ _ _ _ Hb IH).
    + eapply quietRun_mono; [|exact Hb]. lia.
    + eapply quietRun_mono; [|exact Hb]. lia.
Qed.

Lemma saveNodes_quiet nl m : quietRun 0 m (saveNodes env nl m).
Proof.
  induction nl as [|node nl IH] using rev_ind; [apply quietRun_refl|].
  rewrite saveNodes_snoc. cbn zeta.
  case_bool_decide; [|exact IH]. exact (quietRun_SetNode _ _ _ _ IH).
Qed.

Lemma Join_quiet m targets r m' :
  Join env m targets = Returns r m' -> quietRun (length targets) m m'.
Proof.
  unfold Join. intros H.
  pose proof (JoinLoop_quiet targets targets 0 None
                (logw "join-routine" DebugLevel "Starting" [] m)) as Hl.
  assert (H0 : quietRun 0 m (logw "join-routine" DebugLevel "Starting" [] m))
    by (apply quietRun_emit; [done..|apply quietRun_refl]).
  destruct (JoinLoop env targets 0 targets None _) as [[res|] m1|r1 m1| |m1];
    try discriminate; injection H as <- <-.
  - pose proof (quietRun_trans _ _ _ _ _ H0 Hl) as H1.
    pose proof (quietRun_trans _ _ _ _ _ H1 (saveNodes_quiet (meshv1.Nodes res) m1)) as H2.
    eapply quietRun_mono; [|exact H2]. lia.
  - exact (quietRun_trans _ _ _ _ _ H0 Hl).
Qed.

(** X17.  Join only ever adds to the cache.  When it returns, every client
    that was cached is still cached, unchanged; a well-formed cache is
    still well formed; the configuration, the lock and the samples of the
    store are as they were. *)
Theorem Join_keeps_cache m targets r m' :
  Join env m targets = Returns r m' ->
  keepsClients m m' /\
  (pooled m -> pooled m') /\
  setupConfig m' = setupConfig m /\
  mu m' = mu m /\
  samples (database m') = samples (database m).
Proof.
  intros H. apply Join_quiet in H as ((Hcfg & _ & Hmu & Hk & Hs & Hp) & _). done.
Qed.

(** X18.  Join tries each candidate once.  When it returns it has dialled
    at most as many times as there are candidates and has made at most as
    many calls, it has closed no connection and it has observed nothing. *)
Theorem Join_one_attempt_per_candidate m targets r m' :
  Join env m targets = Returns r m' ->
  exists Δ, after m Δ m' /\
    (length (filter isDial Δ) <= length targets)%nat /\
    (length (filter isInvoke Δ) <= length targets)%nat /\
    filter isClose Δ = [] /\ filter isObservation Δ = [].
Proof.
  intros H. apply Join_quiet in H as (_ & HΔ). exact HΔ.
Qed.

(** X19.  Join adopts the name that the response assigns.  After a
    response that accepts the name, when no listed node has the id of the
    candidate that answered, the store holds that candidate under its id,
    in state OK, with the name of the response, not the empty name it
    was contacted under. *)
Theorem Join_adopts_assigned_name m targets k c r :
  firstResponse env targets 0 targets (started m) = Some (k, c, r) ->
  meshv1.NameUnique r = true ->
  (forall node, node ∈ meshv1.Nodes r -> GetId env node ≠ Hash env c) ->
  exists m',
    Join env m targets = Returns (true, true) m' /\
    nodes (database m') !! Hash env c =
      Some {| data.Id := Hash env c; data.Name := meshv1.MyName r;
              data.Target := c; data.State := NODE_OK env;
              data.StateChangeTs := 0 |}.
Proof.
  intros Hfirst Hunique Hfresh.
  assert (Hne : targets ≠ []) by (intros ->; discriminate).
  pose proof (JoinLoop_cases targets targets 0 (started m) Hne
                (length_zero_start targets)) as H.
  rewrite Hfirst, Hunique in H.
  destruct H as (_ & _ & _ & m1 & Hl & Hdb & _).
  eexists. unfold Join. fold (started m). rewrite Hl.
  split; [reflexivity|].
  rewrite saveNodes_other by (right; exact Hfresh).
  rewrite Hdb. unfold joinedPeer.
  rewrite SetNode_Convert_lookup, decide_True by reflexivity. reflexivity.
Qed.

(** ** The pooled operations together *)

Lemma initClient_database m to :
  match initClient env m to with
  | Returns _ m1 | Blocks m1 => database m1 = database m
  | Panics => False
  end.
Proof. initClient_paths m to; reflexivity. Qed.

(** X20.  ping, NodeDiscovery and pushSamples never panic, whatever the
    cache holds and whatever the network answers, and however they end
    they keep the configuration, the lock, every cached client, the form
    of the cache and the store.  Each of them returns when the lock is
    free on entry or a client is cached for the node; otherwise it may
    wait, for a lock that is held, with the client dialled but not
    cached. *)
Theorem pooled_operations_return m node newNode :
  match ping env m node with
  | Returns _ m' => stable m m' /\ database m' = database m
  | Panics => False
  | Blocks m' =>
      (mu m = true /\ clients m !! GetId env node = None) /\
      stable m m' /\ database m' = database m
  end /\
  match NodeDiscovery env m node newNode with
  | Returns _ m' => stable m m' /\ database m' = database m
  | Panics => False
  | Blocks m' =>
      (mu m = true /\ clients m !! GetId env node = None) /\
      stable m m' /\ database m' = database m
  end /\
  match pushSamples env m node with
  | Returns _ m' => stable m m' /\ database m' = database m
  | Panics => False
  | Blocks m' =>
      (mu m = true /\ clients m !! GetId env node = None) /\
      stable m m' /\ database m' = database m
  end /\
  (mu m = false \/ is_Some (clients m !! GetId env node) ->
   (exists err m', ping env m node = Returns err m') /\
   (exists m', NodeDiscovery env m node newNode = Returns tt m') /\
   (exists err m', pushSamples env m node = Returns err m')).
Proof.
  pose proof (initClient_stable m node) as Hst.
  pose proof (initClient_database m node) as Hdb.
  pose proof (initClient_ends m node) as Hends.
  pose proof (initClient_frame m node) as Hframe.
  unfold ping, NodeDiscovery, pushSamples, callUnary.
  destruct (initClient env m node) as [[e|] m1| |m1]; [| |done|].
  - repeat (split; [split; [exact Hst|exact Hdb]|]).
    intros _. repeat split; eauto.
  - destruct (Hframe _ _ eq_refl) as (_ & _ & _ & _ & Hcl & _).
    destruct (Hcl eq_refl) as [c Hc]. rewrite Hc. cbn.
    split; [destruct (UnaryReply env _ _ _); (split; [exact Hst|exact Hdb])|].
    split; [destruct (UnaryReply env _ _ _); (split; [exact Hst|exact Hdb])|].
    split.
    { case_bool_decide; [split; [exact Hst|exact Hdb]|].
      destruct (UnaryReply env _ _ _); (split; [exact Hst|exact Hdb]). }
    intros _. split; [destruct (UnaryReply env _ _ _); eauto|].
    split; [destruct (UnaryReply env _ _ _); eauto|].
    case_bool_decide; [eauto|]. destruct (UnaryReply env _ _ _); eauto.
  - repeat (split; [split; [exact Hends|split; [exact Hst|exact Hdb]]|]).
    destruct Hends as [Hmu Hc].
    intros [Hfree|[c Hc']]; congruence.
Qed.

(** X21.  Opening and closing a client is a round trip on the cache.  For
    an id that is not cached, after an initClient without error and a
    closeClient without error the cache is what it was at the start, the
    lock is free as it was, and the connection that was closed is the one
    that was dialled. *)
Theorem initClient_closeClient_round_trip m to m1 m' :
  clients m !! GetId env to = None ->
  initClient env m to = Returns None m1 ->
  closeClient env m1 to = Returns None m' ->
  clients m' = clients m /\
  mu m = false /\ mu m' = false /\
  exists cred,
    trace m' =
      EvClose {| connTarget := meshv1.Target to;
                 connOpts := [WithTransportCredentials cred;
                              WithUnaryInterceptor] |} :: trace m1 /\
    exists Δ, after m Δ m1 /\
      filter isNetwork Δ =
        [EvDial (meshv1.Target to)
           [WithTransportCredentials cred; WithUnaryInterceptor]].
Proof.
  intros Hc Hi Hclose.
  destruct (initClient_uncached m to Hc) as (cred & H).
  destruct (initClient_frame m to _ _ Hi) as (_ & _ & _ & Hmu & _).
  rewrite Hi in H. destruct H as (Hcl & Hfree & _ & HΔ).
  apply closeClient_nil_inv in Hclose as (c & Hmu1 & Hlook & ->).
  rewrite Hcl, lookup_insert_eq in Hlook. injection Hlook as <-.
  cbn. split.
  - rewrite Hcl, delete_insert_eq. by apply delete_id.
  - split; [exact (Hfree eq_refl)|]. split; [exact Hmu1|]. exists cred. done.
Qed.

(** X22.  Rtt registers the close of the connection before it looks at
    the error of the dial.  When the store has a node in state OK and the
    dial fails, the connection is nil, the deferred close dereferences it,
    and Rtt panics instead of returning. *)
Theorem Rtt_panics_when_dial_fails m :
  GetNodeListByState (database m) (NODE_OK env) ≠ [] ->
  (forall h target opts, is_Some (Dial env h target opts)) ->
  Rtt env m = Panics.
Proof.
  intros Hne Hdial. unfold Rtt, GetRandomNodeListByState, logw, emit.
  cbn [database].
  destruct (GetNodeListByState (database m) (NODE_OK env)) as [|n l] eqn:Hl;
    [done|].
  destruct (take 1 _) as [|peer rest] eqn:Htake; [reflexivity|].
  destruct (transportOption env "rtt" _) as [cred m2].
  unfold timeNow, grpcDial. cbn.
  match goal with
  | |- context [Dial env ?h ?t ?o] => destruct (Hdial h t o) as [e He]; rewrite He
  end.
  reflexivity.
Qed.

End Properties.
(** * The operations at work in the sample world *)

Import Scenario.

Lemma Join_every_candidate_fails_witness :
  everyCandidateFails world ["bad1"; "other"; "bad2"] 0
    ["bad1"; "other"; "bad2"] (started fresh) = true /\
  exists m', Join world fresh ["bad1"; "other"; "bad2"] = Returns (false, true) m'.
Proof.
  split; [vm_compute; reflexivity|].
  destruct (Join_every_candidate_fails world fresh ["bad1"; "other"; "bad2"])
    as (m' & HJ & _); [discriminate | vm_compute; reflexivity |].
  exists m'. exact HJ.
Defined.

Lemma Join_name_not_unique_witness :
  firstResponse world ["bad1"; "taken"; "good"] 0 ["bad1"; "taken"; "good"]
    (started fresh) = Some (1, "taken", collision) /\
  exists m',
    Join world fresh ["bad1"; "taken"; "good"] = Returns (true, false) m' /\
    exists Δ, after (started fresh) Δ m' /\ loggedIndexes Δ = ["1"; "0"].
Proof.
  split; [vm_compute; reflexivity|].
  destruct (Join_name_not_unique world fresh ["bad1"; "taken"; "good"]
              1 "taken" collision)
    as (m' & HJ & _ & _ & Δ & HΔ & Hidx);
    [vm_compute; reflexivity | reflexivity |].
  exists m'. split; [exact HJ|]. exists Δ. split; [exact HΔ|exact Hidx].
Defined.

Lemma Join_bad_refused :
  Join world fresh ["bad1"; "bad2"] = Returns (false, true) refused.
Proof. vm_compute. reflexivity. Qed.

Lemma Join_unique_name_witness :
  firstResponse world ["bad1"; "good"; "x"] 0 ["bad1"; "good"; "x"]
    (started fresh) = Some (1, "good", accepted) /\
  (exists m', Join world fresh ["bad1"; "good"; "x"] = Returns (true, true) m') /\
  Join world fresh ["bad1"; "bad2"] = Returns (false, true) refused /\
  firstResponse world ["bad1"; "bad2"] 0 ["bad1"; "bad2"] (started fresh) = None /\
  exists Δ, after (started fresh) Δ refused /\
    loggedIndexes Δ = ["1"; "0"] /\
    length (filter isInitClient Δ) = 2%nat.
Proof.
  split; [vm_compute; reflexivity|].
  destruct (Join_unique_name world fresh ["bad1"; "good"; "x"]) as [H _];
    [discriminate|].
  split; [apply (H 1 "good" accepted); [vm_compute; reflexivity | reflexivity]|].
  split; [exact Join_bad_refused|].
  destruct (Join_unique_name world fresh ["bad1"; "bad2"]) as [_ H2];
    [discriminate|].
  destruct (H2 refused Join_bad_refused) as (_ & Hnone & HΔ).
  split; [exact Hnone|exact HΔ].
Defined.

(** C1 as stated fails: "good" accepts the name and Join returns
    (true, true), not (true, false). *)
Lemma Join_unique_name_counterexample :
  firstResponse world ["good"] 0 ["good"] (started fresh) =
    Some (0, "good", accepted) /\
  meshv1.NameUnique accepted = true /\
  result (Join world fresh ["good"]) = Some (true, true) /\
  result (Join world fresh ["good"]) ≠ Some (true, false).
Proof.
  split; [vm_compute; reflexivity|]. split; [reflexivity|].
  split; [vm_compute; reflexivity|]. vm_compute. discriminate.
Defined.

Lemma Join_saves_listed_nodes_witness :
  exists m',
    Join world fresh ["good"] = Returns (true, true) m' /\
    nodes (database m') !! GetId world peerA = Some (Convert world peerA 1) /\
    nodes (database m') !! GetId world peerB = Some (Convert world peerB 1) /\
    nodes (database m') !! GetId world me = None.
Proof.
  destruct (Join_saves_listed_nodes world fresh ["good"] 0 "good" accepted)
    as (m' & HJ & _ & _); [vm_compute; reflexivity | reflexivity |].
  exists m'. split; [exact HJ|].
  vm_compute in HJ. injection HJ as <-. vm_compute. done.
Defined.

Lemma Join_empty_list_panics_witness :
  Join world fresh [] = Panics /\
  Join world stuck ["bad1"] ≠ Panics /\
  exists r m', Join world fresh ["bad1"] = Returns r m'.
Proof.
  destruct (Join_empty_list_panics world fresh) as (_ & Hempty & Htotal).
  split; [exact Hempty|].
  split.
  - destruct (Join_empty_list_panics world stuck) as (_ & _ & Hstuck).
    apply (Hstuck ["bad1"]). discriminate.
  - apply (Htotal ["bad1"]); [discriminate|reflexivity].
Defined.

Lemma NodeDiscovery_swallows_errors_witness :
  mu fresh = false /\
  exists m',
    NodeDiscovery world fresh badContact peerA = Returns tt m' /\
    database m' = database fresh /\
    exists Δ, after fresh Δ m' /\ length (filter isWarning Δ) = 1%nat.
Proof.
  split; [reflexivity|].
  destruct (NodeDiscovery_swallows_errors world fresh badContact peerA)
    as [H Hret].
  destruct (Hret eq_refl) as [m' HN]. exists m'. split; [exact HN|].
  rewrite HN in H. destruct H as (Hdb & Δ & HΔ & _ & _ & Hw).
  split; [exact Hdb|]. exists Δ. split; [exact HΔ|exact Hw].
Defined.

Lemma pushSamples_empty_list_witness :
  GetSampleList (database joined) = [] /\
  GetSampleList (database fresh) = [] /\
  (exists m',
     pushSamples world joined goodContact = Returns None m' /\
     exists Δ, after joined Δ m' /\ filter isNetwork Δ = []) /\
  exists cred m',
    pushSamples world fresh badContact =
      Returns
        (Dial world (sinceDial (trace m')) "bad1"
           [WithTransportCredentials cred; WithUnaryInterceptor]) m' /\
    exists Δ, after fresh Δ m' /\
      filter isNetwork Δ =
        [EvDial "bad1" [WithTransportCredentials cred; WithUnaryInterceptor]].
Proof.
  split; [vm_compute; reflexivity|]. split; [vm_compute; reflexivity|].
  split.
  - pose proof (pushSamples_empty_list world joined goodContact
                  ltac:(vm_compute; reflexivity)) as H.
    assert (Hc : clients joined !! GetId world goodContact = Some goodClient)
      by (vm_compute; reflexivity).
    rewrite Hc in H. destruct H as (m' & HP & _ & _ & HΔ).
    exists m'. split; [exact HP|exact HΔ].
  - pose proof (pushSamples_empty_list world fresh badContact
                  ltac:(vm_compute; reflexivity)) as H.
    assert (Hc : clients fresh !! GetId world badContact = None)
      by (vm_compute; reflexivity).
    rewrite Hc in H. destruct H as (cred & H). exists cred.
    destruct (pushSamples world fresh badContact) as [err m'| |m'];
      [|destruct H|destruct H as (_ & Hmu & _); discriminate].
    destruct H as (-> & _ & _ & HΔ).
    exists m'. split; [reflexivity|exact HΔ].
Defined.

(** C2 as stated fails: with an empty sample list pushSamples dials a
    target that has no cached client, and returns the error of a dial that
    fails. *)
Lemma pushSamples_empty_list_counterexample :
  GetSampleList (database fresh) = [] /\
  result (pushSamples world fresh badContact) = Some (Some "connection refused") /\
  (filter isNetwork <$> (trace <$> final (pushSamples world fresh goodContact))) =
    Some [EvDial "good" [WithTransportCredentials InsecureCredentials;
                         WithUnaryInterceptor]].
Proof.
  split; [vm_compute; reflexivity|]. split; vm_compute; reflexivity.
Defined.

Lemma closeClient_not_cached_panics_witness :
  clients fresh !! GetId world goodContact = None /\
  clients stuck !! GetId world badContact = None /\
  closeClient world fresh goodContact = Panics /\
  closeClient world stuck badContact = Blocks stuck.
Proof.
  split; [vm_compute; reflexivity|]. split; [vm_compute; reflexivity|].
  split.
  - apply (closeClient_not_cached_panics world fresh goodContact).
    vm_compute. reflexivity.
  - apply (closeClient_not_cached_panics world stuck badContact).
    vm_compute. reflexivity.
Defined.

Lemma Rtt_no_node_in_state_OK_witness :
  exists m', Rtt world fresh = Returns tt m' /\ database m' = database fresh.
Proof.
  destruct (Rtt_no_node_in_state_OK world fresh) as (m' & HJ & Hdb & _).
  - intros id n H. vm_compute in H. discriminate.
  - exists m'. split; [exact HJ|exact Hdb].
Defined.

Lemma Rtt_joined_measured : Rtt world joined = Returns tt measured.
Proof. vm_compute. reflexivity. Qed.

Lemma Rtt_stores_two_samples_witness :
  Rtt world joined = Returns tt measured /\
  GetSampleList (database measured) =
    [ {| data.SId := fnv32a "meb2"; data.From := "me"; data.To := "b";
         data.Key := 2; data.Value := "2000"; data.Ts := 1700000000 |};
      {| data.SId := fnv32a "meb1"; data.From := "me"; data.To := "b";
         data.Key := 1; data.Value := "4000"; data.Ts := 1700000000 |} ] /\
  exists peer,
    peer ∈ GetNodeListByState (database joined) 1 /\
    samples (database measured) !! fnv32a ("me" +:+ data.Name peer +:+ "2") =
      Some {| data.SId := fnv32a ("me" +:+ data.Name peer +:+ "2");
              data.From := "me"; data.To := data.Name peer;
              data.Key := 2; data.Value := "2000";
              data.Ts := 1700000000 |}.
Proof.
  split; [exact Rtt_joined_measured|].
  split; [vm_compute; reflexivity|].
  destruct (Rtt_stores_two_samples world joined measured
              (at_ns 13000) (at_ns 15000) (at_ns 17000)
              (at_ns 21000) (at_ns 22000))
    as (peer & Hin & _ & _ & Hreq & _);
    [ exact Rtt_joined_measured | vm_compute; reflexivity
    | vm_compute; discriminate | vm_compute; discriminate
    | vm_compute; discriminate | ].
  exists peer. split; [exact Hin|exact Hreq].
Defined.

(** ** The further properties at work *)

Lemma pooled_fresh : pooled fresh.
Proof. intros id c H. vm_compute in H. discriminate. Qed.

Lemma Join_good_joined : Join world fresh ["good"] = Returns (true, true) joined.
Proof. vm_compute. reflexivity. Qed.

Lemma pooled_joined : pooled joined.
Proof.
  destruct (Join_quiet world fresh ["good"] _ _ Join_good_joined)
    as ((_ & _ & _ & _ & _ & Hp) & _).
  exact (Hp pooled_fresh).
Qed.

Lemma pooled_measured : pooled measured.
Proof.
  destruct (Rtt_cases world joined measured Rtt_joined_measured)
    as (_ & Hcl & _).
  unfold pooled. rewrite Hcl. exact pooled_joined.
Qed.

Lemma initClient_fresh_opened :
  initClient world fresh goodContact = Returns None opened.
Proof. vm_compute. reflexivity. Qed.

Lemma initClient_reuses_cached_client_witness :
  clients joined !! GetId world goodContact = Some goodClient /\
  mu stuck = true /\
  (exists m1, initClient world joined goodContact = Returns None m1 /\
     clients m1 = clients joined) /\
  exists m1, initClient world stuck goodContact = Returns None m1 /\
    mu m1 = true.
Proof.
  split; [vm_compute; reflexivity|]. split; [vm_compute; reflexivity|].
  split.
  - destruct (initClient_reuses_cached_client world joined goodContact goodClient)
      as (m1 & Hi & Hcl & _); [vm_compute; reflexivity|].
    exists m1. split; [exact Hi|exact Hcl].
  - destruct (initClient_reuses_cached_client world stuck goodContact goodClient)
      as (m1 & Hi & _ & _ & Hmu & _); [vm_compute; reflexivity|].
    exists m1. split; [exact Hi|]. rewrite Hmu. vm_compute. reflexivity.
Defined.

Lemma initClient_caches_new_client_witness :
  clients fresh !! GetId world goodContact = None /\
  initClient world fresh goodContact = Returns None opened /\
  exists cred,
    clients opened =
      <[GetId world goodContact :=
          {| conn := {| connTarget := "good";
                        connOpts := [WithTransportCredentials cred;
                                     WithUnaryInterceptor] |};
             client := {| connTarget := "good";
                          connOpts := [WithTransportCredentials cred;
                                       WithUnaryInterceptor] |} |}]>
        (clients fresh).
Proof.
  split; [vm_compute; reflexivity|]. split; [exact initClient_fresh_opened|].
  destruct (initClient_caches_new_client world fresh goodContact opened)
    as (cred & Hcl & _);
    [vm_compute; reflexivity | exact initClient_fresh_opened |].
  exists cred. exact Hcl.
Defined.

Lemma initClient_error_caches_nothing_witness :
  exists m1,
    initClient world fresh badContact = Returns (Some "connection refused") m1 /\
    clients m1 = clients fresh.
Proof.
  eexists. split; [vm_compute; reflexivity|].
  destruct (initClient_error_caches_nothing world fresh badContact
              "connection refused" _ ltac:(vm_compute; reflexivity))
    as (_ & Hcl & _).
  exact Hcl.
Defined.

Lemma initClient_same_id_reuses_witness :
  exists m2,
    initClient world opened namesake = Returns None m2 /\
    clients m2 = clients opened.
Proof.
  destruct (initClient_same_id_reuses world fresh goodContact namesake opened)
    as (m2 & Hi & Hcl & _); [reflexivity | exact initClient_fresh_opened |].
  exists m2. split; [exact Hi|exact Hcl].
Defined.

Lemma initClient_insecure_fallback_witness :
  initClient world fresh goodContact = Returns None opened /\
  None = Dial world (sinceDial (trace opened)) "good"
           [WithTransportCredentials InsecureCredentials; WithUnaryInterceptor] /\
  exists Δ, after fresh Δ opened /\
    filter isNetwork Δ =
      [EvDial "good"
         [WithTransportCredentials InsecureCredentials; WithUnaryInterceptor]].
Proof.
  split; [exact initClient_fresh_opened|].
  pose proof (initClient_insecure_fallback world fresh goodContact) as H.
  rewrite initClient_fresh_opened in H. apply H.
  - intros h. eexists. reflexivity.
  - vm_compute. reflexivity.
Defined.

Lemma initClient_keeps_pooled_witness :
  pooled opened /\ keepsClients fresh opened.
Proof.
  pose proof (initClient_keeps_pooled world fresh goodContact pooled_fresh) as H.
  rewrite initClient_fresh_opened in H. exact H.
Defined.

Lemma ping_is_a_probe_witness :
  exists err m' c Δ,
    ping world fresh goodContact = Returns err m' /\
    database m' = database fresh /\
    after fresh Δ m' /\
    filter isInvoke Δ =
      [EvInvoke (client c)
         (ReqPing {| meshv1.Name := "me"; meshv1.Target := "me:8081" |})
         (Some 3000000000)].
Proof.
  destruct (ping_is_a_probe world fresh goodContact pooled_fresh) as [H Hret].
  destruct (Hret eq_refl) as (err & m' & HP).
  rewrite HP, initClient_fresh_opened in H.
  destruct H as (Hdb & Δ & HΔ & _ & c & _ & Hi).
  exists err, m', c, Δ. done.
Defined.

Lemma NodeDiscovery_announces_listen_address_witness :
  exists m' c Δ,
    NodeDiscovery world fresh goodContact peerB = Returns tt m' /\
    after fresh Δ m' /\
    filter isInvoke Δ =
      [EvInvoke (client c)
         (ReqNodeDiscovery
            {| meshv1.NewNode := peerB;
               meshv1.IAmNode :=
                 {| meshv1.Name := "me"; meshv1.Target := "0.0.0.0:8081" |} |})
         (Some 3000000000)].
Proof.
  destruct (NodeDiscovery_announces_listen_address world fresh goodContact peerB
              opened pooled_fresh initClient_fresh_opened)
    as (m' & c & HN & _ & Δ & HΔ & Hi).
  exists m', c, Δ. split; [exact HN|]. split; [exact HΔ|exact Hi].
Defined.

Lemma pushSamples_sends_whole_list_witness :
  exists err m' c Δ,
    pushSamples world measured goodContact = Returns err m' /\
    after measured Δ m' /\
    filter isInvoke Δ =
      [EvInvoke (client c)
         (ReqPushSamples
            {| meshv1.Samples_ :=
                 [ {| meshv1.From := "me"; meshv1.To := "b"; meshv1.Key := 2;
                      meshv1.Value := "2000"; meshv1.Ts := 1700000000 |};
                   {| meshv1.From := "me"; meshv1.To := "b"; meshv1.Key := 1;
                      meshv1.Value := "4000"; meshv1.Ts := 1700000000 |} ] |})
         (Some 3000000000)].
Proof.
  destruct (pushSamples_sends_whole_list world measured goodContact
              _ pooled_measured
              ltac:(intros H; vm_compute in H; discriminate)
              ltac:(vm_compute; reflexivity))
    as (err & m' & c & payload & HP & _ & _ & (Δ & HΔ & Hi) & Hpay & _).
  exists err, m', c, Δ. split; [exact HP|]. split; [exact HΔ|].
  rewrite Hi, Hpay. vm_compute. reflexivity.
Defined.

Lemma closeClient_joined_closed :
  closeClient world joined goodContact = Returns None closed.
Proof. vm_compute. reflexivity. Qed.

Lemma closeClient_evicts_witness :
  closeClient world joined goodContact = Returns None closed /\
  clients joined !! GetId world goodContact = Some goodClient /\
  clients closed !! GetId world goodContact = None /\
  mu closed = false /\
  trace closed = EvClose (conn goodClient) :: trace joined.
Proof.
  split; [exact closeClient_joined_closed|].
  destruct (closeClient_evicts world joined goodContact closed
              closeClient_joined_closed)
    as (c & Hc & _ & Hgone & _ & _ & _ & Hmu & Htr).
  assert (Hgood : c = goodClient).
  { assert (H : clients joined !! GetId world goodContact = Some goodClient)
      by (vm_compute; reflexivity).
    rewrite Hc in H. by injection H. }
  subst c. split; [exact Hc|]. split; [exact Hgone|]. split; [exact Hmu|exact Htr].
Defined.

Lemma closeClient_joined_stuck :
  closeClient offline joined goodContact = Returns (Some "close failed") stuck.
Proof. vm_compute. reflexivity. Qed.

Lemma closeClient_error_keeps_entry_witness :
  closeClient offline joined goodContact = Returns (Some "close failed") stuck /\
  clients stuck = clients joined /\
  mu stuck = true /\
  closeClient world stuck goodContact = Blocks stuck.
Proof.
  split; [exact closeClient_joined_stuck|].
  destruct (closeClient_error_keeps_entry offline joined goodContact
              "close failed" stuck closeClient_joined_stuck)
    as (c & _ & Hcl & _ & _ & Hmu & _).
  split; [exact Hcl|]. split; [exact Hmu|].
  vm_compute. reflexivity.
Defined.

Lemma closeClient_twice_panics_witness :
  closeClient world joined goodContact = Returns None closed /\
  closeClient world closed namesake = Panics.
Proof.
  split; [exact closeClient_joined_closed|].
  apply (closeClient_twice_panics world joined goodContact namesake closed);
    [reflexivity | exact closeClient_joined_closed].
Defined.

Lemma closeClient_then_initClient_redials_witness :
  exists cred err m2 Δ,
    initClient world closed goodContact = Returns err m2 /\
    after closed Δ m2 /\
    filter isNetwork Δ =
      [EvDial "good" [WithTransportCredentials cred; WithUnaryInterceptor]].
Proof.
  exact (closeClient_then_initClient_redials world joined goodContact closed
           closeClient_joined_closed).
Defined.

Lemma Rtt_bypasses_cache_witness :
  Rtt world joined = Returns tt measured /\
  clients measured = clients joined /\
  nodes (database measured) = nodes (database joined).
Proof.
  split; [exact Rtt_joined_measured|].
  destruct (Rtt_bypasses_cache world joined measured Rtt_joined_measured)
    as (Hcl & _ & Hn).
  split; [exact Hcl|exact Hn].
Defined.

Lemma Rtt_closes_what_it_dials_witness :
  exists Δ, after joined Δ measured /\
    (filter isNetwork Δ = [] \/
     exists peer cred,
       peer ∈ GetNodeListByState (database joined) 1 /\
       filter isNetwork Δ =
         [EvClose (rttConn peer cred);
          EvInvoke (rttConn peer cred) ReqRtt None;
          EvDial (data.Target peer)
            [WithTransportCredentials cred; WithBlock]]).
Proof.
  exact (Rtt_closes_what_it_dials world joined measured Rtt_joined_measured).
Defined.

Lemma Rtt_no_partial_samples_witness :
  exists Δ, after joined Δ measured /\
    ((filter isObservation Δ = [] /\ database measured = database joined) \/
     exists peer total request,
       filter isObservation Δ =
         [EvObserve "rtt_request" (data.Name peer) request;
          EvObserve "rtt_total" (data.Name peer) total] /\
       exists sR,
         samples (database measured) !!
           fnv32a ("me" +:+ data.Name peer +:+ "2") = Some sR /\
         data.To sR = data.Name peer /\
         ParseInt (data.Value sR) = Some request).
Proof.
  destruct (Rtt_no_partial_samples world joined measured Rtt_joined_measured)
    as (Δ & HΔ & H).
  exists Δ. split; [exact HΔ|].
  destruct H as [H|(peer & total & request & now1 & now2 & H)]; [left; exact H|].
  right. exists peer, total, request.
  destruct H as (_ & Ho & _ & _ & HR & _ & _ & HpR).
  split; [exact Ho|]. eexists. split; [exact HR|]. split; [reflexivity|exact HpR].
Defined.

Lemma Join_keeps_cache_witness :
  Join world fresh ["good"] = Returns (true, true) joined /\
  keepsClients fresh joined /\ (pooled fresh -> pooled joined) /\
  samples (database joined) = samples (database fresh).
Proof.
  split; [exact Join_good_joined|].
  destruct (Join_keeps_cache world fresh ["good"] _ _ Join_good_joined)
    as (Hk & Hp & _ & _ & Hs).
  split; [exact Hk|]. split; [exact Hp|exact Hs].
Defined.

Lemma Join_one_attempt_per_candidate_witness :
  exists Δ, after fresh Δ joined /\
    (length (filter isDial Δ) <= 1)%nat /\
    (length (filter isInvoke Δ) <= 1)%nat /\
    filter isClose Δ = [] /\ filter isObservation Δ = [].
Proof.
  exact (Join_one_attempt_per_candidate world fresh ["good"] _ _ Join_good_joined).
Defined.

Lemma Join_adopts_assigned_name_witness :
  exists m',
    Join world fresh ["good"] = Returns (true, true) m' /\
    nodes (database m') !! fnv32a "good" =
      Some {| data.Id := fnv32a "good"; data.Name := "good-node";
              data.Target := "good"; data.State := 1;
              data.StateChangeTs := 0 |}.
Proof.
  apply (Join_adopts_assigned_name world fresh ["good"] 0 "good" accepted).
  - vm_compute. reflexivity.
  - reflexivity.
  - intros node Hin.
    repeat (apply elem_of_cons in Hin as [->|Hin]; [vm_compute; discriminate|]).
    by apply elem_of_nil in Hin.
Defined.

Lemma pooled_operations_return_witness :
  mu stuck = true /\
  (exists err m', ping world fresh badContact = Returns err m') /\
  (exists m', NodeDiscovery world stuck goodContact peerA = Returns tt m') /\
  (exists m', pushSamples world stuck peerA = Blocks m' /\ stable stuck m').
Proof.
  split; [vm_compute; reflexivity|].
  split.
  - destruct (pooled_operations_return world fresh badContact peerA)
      as (_ & _ & _ & Hret).
    destruct (Hret (or_introl eq_refl)) as (Hping & _). exact Hping.
  - split.
    + destruct (pooled_operations_return world stuck goodContact peerA)
        as (_ & _ & _ & Hret).
      assert (Hc : is_Some (clients stuck !! GetId world goodContact))
        by (vm_compute; eauto).
      destruct (Hret (or_intror Hc)) as (_ & Hnd & _). exact Hnd.
    + destruct (pooled_operations_return world stuck peerA peerA)
        as (_ & _ & Hpush & _).
      destruct (pushSamples world stuck peerA) as [err m'| |m'] eqn:HP;
        [vm_compute in HP; discriminate|destruct Hpush|].
      exists m'. split; [reflexivity|]. destruct Hpush as (_ & Hst & _).
      exact Hst.
Defined.

Lemma closeClient_opened_reclosed :
  closeClient world opened goodContact = Returns None reclosed.
Proof. vm_compute. reflexivity. Qed.

Lemma initClient_closeClient_round_trip_witness :
  clients fresh !! GetId world goodContact = None /\
  initClient world fresh goodContact = Returns None opened /\
  closeClient world opened goodContact = Returns None reclosed /\
  clients reclosed = clients fresh /\ mu reclosed = false.
Proof.
  split; [vm_compute; reflexivity|]. split; [exact initClient_fresh_opened|].
  split; [exact closeClient_opened_reclosed|].
  destruct (initClient_closeClient_round_trip world fresh goodContact opened reclosed)
    as (Hcl & _ & Hmu & _);
    [vm_compute; reflexivity | exact initClient_fresh_opened
    | exact closeClient_opened_reclosed |].
  split; [exact Hcl|exact Hmu].
Defined.

Lemma Rtt_panics_when_dial_fails_witness :
  GetNodeListByState (database joined) (NODE_OK offline) ≠ [] /\
  Rtt offline joined = Panics.
Proof.
  assert (Hne : GetNodeListByState (database joined) (NODE_OK offline) ≠ [])
    by (intros H; vm_compute in H; discriminate).
  split; [exact Hne|].
  apply Rtt_panics_when_dial_fails; [exact Hne|].
  intros h target opts. eexists. reflexivity.
Defined.
